(** * Store1 moderation bot: validator and command dispatcher

    A shallow embedding of [.github/scripts/validate_manifest.py] and
    [.github/scripts/bot_commands.py], followed by the properties of the
    review workflow that are checked against it.

    Conventions of the embedding:
    - a Python [str] is the [string] of its UTF-8 bytes; all markers and
      commands the scripts search for are ASCII, so searching bytes and
      searching code points agree;
    - values produced by [json.load]/[json.loads] are the type [json], whose
      [JNull] is Python's [None];
    - the review host (labels, comments, merge and close calls) is an explicit
      state threaded through a small state-and-exit monad [script];
    - everything the scripts only read (checkout, icons, network, changed
      files) is the record [world];
    - the Python library functions the scripts call without defining them
      ([json.loads], [hashlib.sha256], [repr] of containers) are the
      interface [PyRuntime];
    - an exception that no [except] catches ends the process with a
      traceback; calls to the host raise only where the scripts provide for
      it (the merge, the close, the removal of a label that is not there);
    - what [main] of either script does before it has the number of the
      thread (reading the event file and [GITHUB_REF]) is not modelled: the
      number each script finds is an input. *)

From Stdlib Require Import String Ascii ZArith List Bool Lia.
From stdpp Require Import base option list strings gmap pretty.

#[local] Set Warnings "-register-all,-clear-no-such-hyp".
#[local] Open Scope string_scope.
#[local] Open Scope Z_scope.
#[local] Open Scope list_scope.

(** * Python values and strings *)

Module Py.

(** The result of an expression evaluated under [try]: a value, or an
    exception, kept as the text an f-string prints for it. *)
Inductive raised (A : Type) : Type :=
| Return (a : A)
| Raise (e : string).
Arguments Return {A} a.
Arguments Raise {A} e.

(** A value read from JSON.  A float is kept as what the scripts can observe
    of it: whether it is zero (truthiness) and its [repr]. *)
Inductive json : Type :=
| JNull
| JBool (b : bool)
| JInt (z : Z)
| JFloat (zero : bool) (repr : string)
| JStr (s : string)
| JArr (l : list json)
| JObj (d : gmap string json).

(** The library functions the scripts rely on. *)
Class PyRuntime : Type := {
  (** [json.loads] (and [json.load] on a file's bytes). *)
  json_loads : string -> raised json;
  (** [hashlib.sha256(data).hexdigest()]. *)
  sha256_hexdigest : string -> string;
  (** [repr] of a list or dict, as [str()] and f-strings use it. *)
  py_repr : json -> string
}.

Definition nl : string := String (ascii_of_nat 10) EmptyString.

(** [pat in s] on strings. *)
Definition contains (pat s : string) : bool :=
  match String.index 0 pat s with
  | Some _ => true
  | None => false
  end.

(** [s.startswith(pre)] *)
Definition startswith (s pre : string) : bool := String.prefix pre s.

(** [s.endswith(suf)] *)
Definition endswith (s suf : string) : bool :=
  let n := String.length s in
  let k := String.length suf in
  (k <=? n)%nat && String.eqb (String.substring (n - k) k s) suf.

(** [sep.join(parts)] *)
Definition join (sep : string) (parts : list string) : string :=
  String.concat sep parts.

(** Whitespace as [str.isspace] sees it, on the UTF-8 encoding: the ASCII
    characters 9-13 and 28-32, and the encodings of U+0085, U+00A0, U+1680,
    U+2000-U+200A, U+2028, U+2029, U+202F, U+205F and U+3000. *)
Definition is_space1 (a : ascii) : bool :=
  let n := nat_of_ascii a in
  ((9 <=? n) && (n <=? 13) || (28 <=? n) && (n <=? 32))%nat.

Definition is_space2 (a b : ascii) : bool :=
  let m := nat_of_ascii a in
  let n := nat_of_ascii b in
  ((m =? 194) && ((n =? 133) || (n =? 160)))%nat.

Definition is_space3 (a b c : ascii) : bool :=
  let l := nat_of_ascii a in
  let m := nat_of_ascii b in
  let n := nat_of_ascii c in
  ((l =? 225) && (m =? 154) && (n =? 128)
   || (l =? 226) && (m =? 128)
      && ((128 <=? n) && (n <=? 138) || (n =? 168) || (n =? 169) || (n =? 175))
   || (l =? 226) && (m =? 129) && (n =? 159)
   || (l =? 227) && (m =? 128) && (n =? 128))%nat.

Section strip.
Variable sp2 : ascii -> ascii -> bool.
Variable sp3 : ascii -> ascii -> ascii -> bool.

Fixpoint lstrip_with (s : string) : string :=
  match s with
  | EmptyString => s
  | String a s1 =>
      if is_space1 a then lstrip_with s1
      else match s1 with
           | EmptyString => s
           | String b s2 =>
               if sp2 a b then lstrip_with s2
               else match s2 with
                    | EmptyString => s
                    | String c s3 => if sp3 a b c then lstrip_with s3 else s
                    end
           end
  end.
End strip.

Definition lstrip : string -> string := lstrip_with is_space2 is_space3.

Definition rstrip (s : string) : string :=
  String.rev
    (lstrip_with (fun a b => is_space2 b a) (fun a b c => is_space3 c b a)
       (String.rev s)).

(** [s.strip()] *)
Definition strip (s : string) : string := rstrip (lstrip s).

(** [bool(v)] *)
Definition truthy (v : json) : bool :=
  match v with
  | JNull => false
  | JBool b => b
  | JInt z => negb (z =? 0)
  | JFloat zero _ => negb zero
  | JStr s => negb (String.eqb s EmptyString)
  | JArr l => match l with [] => false | _ => true end
  | JObj d => match map_to_list d with [] => false | _ => true end
  end.

(** [str(v)], which is what an f-string field prints. *)
Definition py_str `{PyRuntime} (v : json) : string :=
  match v with
  | JNull => "None"
  | JBool true => "True"
  | JBool false => "False"
  | JInt z => pretty z
  | JFloat _ r => r
  | JStr s => s
  | JArr _ | JObj _ => py_repr v
  end.

(** [v == s] for a string [s]: only an equal string is equal to it. *)
Definition eq_str (v : json) (s : string) : bool :=
  match v with
  | JStr t => String.eqb t s
  | _ => false
  end.

(** [key in v].  [None] is the [TypeError] of a value that is not a
    container. *)
Definition py_in (key : string) (v : json) : option bool :=
  match v with
  | JObj d => Some (bool_decide (is_Some (d !! key)))
  | JArr l => Some (existsb (fun x => eq_str x key) l)
  | JStr s => Some (contains key s)
  | _ => None
  end.

(** [v.get(key)].  [None] is the [AttributeError] of a value that is not a
    dict; a missing key gives Python's [None]. *)
Definition py_get (v : json) (key : string) : option json :=
  match v with
  | JObj d => Some (default JNull (d !! key))
  | _ => None
  end.

End Py.
Export Py.

(** * The review host and the checkout *)

Module Host.

(** A comment on the review thread: [c.user.login] and [c.body]. *)
Record comment : Type := Comment {
  user : string;
  body : option string
}.

(** Calls that act on the submission itself. *)
Inductive action : Type :=
| Merge   (** [pr.merge], always with the squash method *)
| Close.  (** [pr.edit] setting the state to closed *)

(** What the host stores for one review thread. *)
Record host : Type := MkHost {
  labels : gset string;
  comments : list comment;
  calls : list action
}.

(** A path of the checkout, as [os.path.exists] and [open] see it. *)
Inductive file_state : Type :=
| NoFile
| Unreadable (e : string)   (** exists, but [open] raises [e] *)
| Content (bytes : string).

(** An opened image: [img.format], [img.width], [img.height]. *)
Record image : Type := Image {
  format : string;
  width : Z;
  height : Z
}.

(** An existing icon path: [os.path.getsize], which does not fail on a path
    that exists, and [Image.open], which may. *)
Record icon_file : Type := Icon {
  getsize : Z;
  image_open : raised image
}.

(** [requests.get(url, timeout=20)]: [r.status_code] and [r.content]. *)
Record response : Type := Response {
  status_code : Z;
  content : string
}.

(** Everything a run reads and does not change. *)
Record world : Type := MkWorld {
  (** [f.filename for f in pr.get_files()] *)
  changed_files : list string;
  fs : string -> file_state;
  (** [None]: [os.path.exists(icon_path)] is false *)
  icon_at : string -> option icon_file;
  http_get : json -> raised response;
  (** the exception [pr.merge] raises, if it does *)
  merge_error : option string;
  (** the exception the closing [pr.edit] raises, if it does *)
  close_error : option string;
  (** the account the token posts as *)
  bot_login : string
}.

(** How a process ends: [sys.exit(status)], or an exception nobody caught. *)
Inductive outcome : Type :=
| Exit (status : Z)
| Traceback.

(** The exit status the caller of the process observes. *)
Definition exit_status (o : outcome) : Z :=
  match o with
  | Exit n => n
  | Traceback => 1
  end.

(** Either the script goes on with a value, or the process has ended. *)
Inductive step (A : Type) : Type :=
| Next (a : A)
| Halt (o : outcome).
Arguments Next {A} a.
Arguments Halt {A} o.

Definition script (A : Type) : Type := host -> step A * host.

#[global] Instance script_ret : MRet script :=
  fun A (a : A) h => (Next a, h).

#[global] Instance script_bind : MBind script :=
  fun A B (k : A -> script B) (m : script A) h =>
    match m h with
    | (Next a, h') => k a h'
    | (Halt o, h') => (Halt o, h')
    end.

Definition sys_exit {A} (status : Z) : script A :=
  fun h => (Halt (Exit status), h).

Definition uncaught {A} : script A :=
  fun h => (Halt Traceback, h).

(** The process as its caller sees it: a script that returns from [main]
    without [sys.exit] ends with status 0. *)
Definition run (m : script unit) (h : host) : outcome * host :=
  match m h with
  | (Next _, h') => (Exit 0, h')
  | (Halt o, h') => (o, h')
  end.

Definition when (b : bool) (m : script unit) : script unit :=
  if b then m else mret tt.

(** [[l.name for l in pr.get_labels()]] *)
Definition get_labels : script (gset string) :=
  fun h => (Next (labels h), h).

(** [pr.remove_from_labels(l)].  The host refuses to remove a label that is
    not there; the dispatcher wraps the call in [try/except: pass] and the
    validator guards it, so in both the thread is left as it was. *)
Definition remove_from_labels (l : string) : script unit :=
  fun h => (Next tt, MkHost (labels h ∖ {[ l ]}) (comments h) (calls h)).

(** [pr.add_to_labels(l)] *)
Definition add_to_labels (l : string) : script unit :=
  fun h => (Next tt, MkHost (labels h ∪ {[ l ]}) (comments h) (calls h)).

(** [list(issue.get_comments())], oldest first. *)
Definition get_comments : script (list comment) :=
  fun h => (Next (comments h), h).

(** [issue.create_comment(text)] *)
Definition create_comment (w : world) (text : string) : script unit :=
  fun h =>
    (Next tt,
     MkHost (labels h) (comments h ++ [Comment (bot_login w) (Some text)])
       (calls h)).

(** [pr.merge] under [try]. *)
Definition pr_merge (w : world) : script (raised unit) :=
  fun h =>
    (Next (match merge_error w with Some e => Raise e | None => Return tt end),
     MkHost (labels h) (comments h) (calls h ++ [Merge])).

(** The closing [pr.edit] under [try]. *)
Definition pr_close (w : world) : script (raised unit) :=
  fun h =>
    (Next (match close_error w with Some e => Raise e | None => Return tt end),
     MkHost (labels h) (comments h) (calls h ++ [Close])).

End Host.
Export Host.

(** * Process environment shared by both scripts *)

Record environ : Type := Environ {
  GITHUB_TOKEN : option string;
  GITHUB_REPOSITORY : option string
}.

(** [not os.environ.get(name)]: unset, or set to the empty string. *)
Definition unset (v : option string) : bool :=
  match v with
  | None => true
  | Some s => String.eqb s EmptyString
  end.

(** The filter both scripts apply to the changed files. *)
Definition is_manifest (filename : string) : bool :=
  startswith filename "manifests/" && endswith filename ".json".

Definition ON_REVIEW : string := "On review".
Definition INVALID_MANIFEST : string := "Invalid manifest".
Definition APPROVED : string := "Approved".
Definition REJECTED : string := "Rejected".

Definition has_label (l : string) (ls : gset string) : bool :=
  bool_decide (l ∈ ls).

(** * validate_manifest.py *)

Module Validator.

Definition ICON_MAX_SIZE : Z := 3072.
Definition ICON_WIDTH : Z := 32.
Definition ICON_HEIGHT : Z := 32.

Definition REQUIRED_FIELDS : list string :=
  [ "package"; "name"; "author"; "version"; "category"; "description";
    "url"; "sha256"; "api_level"; "permissions"; "min_os_version" ].

(** One entry of [errors].  The script appends the rendered line; [render]
    below gives it. *)
Inductive defect : Type :=
| FileNotFound (manifest_path : string)
| InvalidJSON (manifest_path e : string)
| MissingField (manifest_path field : string)
| IconMissing (manifest_path icon_path : string)
| IconTooLarge (icon_path : string)
| IconNotPNG (icon_path : string)
| IconBadDimensions (icon_path : string)
| IconUnreadable (icon_path e : string)
| UrlStatus (manifest_path : string) (status : Z)
| HashMismatch (manifest_path : string) (declared_hash : json)
    (actual_hash : string)
| DownloadFailed (manifest_path e : string).

Section validator.
Context `{PyRuntime} (w : world).

Definition sha256_bytes (data : string) : string := sha256_hexdigest data.

Definition render (d : defect) : string :=
  match d with
  | FileNotFound p => "❌ " +:+ p +:+ ": file not found"
  | InvalidJSON p e => "❌ " +:+ p +:+ ": invalid JSON (" +:+ e +:+ ")"
  | MissingField p f =>
      "❌ " +:+ p +:+ ": missing required field '" +:+ f +:+ "'"
  | IconMissing p i => "❌ " +:+ p +:+ ": icon file missing (" +:+ i +:+ ")"
  | IconTooLarge i => "❌ " +:+ i +:+ ": file size exceeds 2048 bytes"
  | IconNotPNG i => "❌ " +:+ i +:+ ": icon is not PNG"
  | IconBadDimensions i => "❌ " +:+ i +:+ ": icon size must be 32x32"
  | IconUnreadable i e =>
      "❌ " +:+ i +:+ ": failed to read icon (" +:+ e +:+ ")"
  | UrlStatus p s => "❌ " +:+ p +:+ ": URL returned HTTP " +:+ pretty s
  | HashMismatch p d a =>
      "❌ " +:+ p +:+ ": sha256 mismatch (expected " +:+ py_str d
      +:+ ", got " +:+ a +:+ ")"
  | DownloadFailed p e =>
      "❌ " +:+ p +:+ ": failed to download file (" +:+ e +:+ ")"
  end.

(** The loop over [REQUIRED_FIELDS]; [None] when [field not in manifest]
    raises. *)
Fixpoint check_fields (manifest_path : string) (manifest : json)
    (fields : list string) : option (list defect) :=
  match fields with
  | [] => Some []
  | field :: rest =>
      present ← py_in field manifest;
      errs ← check_fields manifest_path manifest rest;
      Some ((if present : bool then []
             else [MissingField manifest_path field])
            ++ errs)
  end.

Definition icon_path_of (package : json) : string :=
  "icons/" +:+ py_str package +:+ ".png".

(** The body of the [with Image.open(icon_path) as img] block. *)
Definition check_image (icon_path : string) (img : image) : list defect :=
  (if String.eqb (format img) "PNG" then [] else [IconNotPNG icon_path])
  ++ (if (width img =? ICON_WIDTH) && (height img =? ICON_HEIGHT)
      then [] else [IconBadDimensions icon_path]).

(** The icon block: one branch for a missing file, otherwise the size check
    followed by the image checks, an exception from [Image.open] becoming a
    defect of its own. *)
Definition check_icon (manifest_path : string) (package : json)
    : list defect :=
  let icon_path := icon_path_of package in
  match icon_at w icon_path with
  | None => [IconMissing manifest_path icon_path]
  | Some icon =>
      (if ICON_MAX_SIZE <? getsize icon then [IconTooLarge icon_path] else [])
      ++ match image_open icon with
         | Return img => check_image icon_path img
         | Raise e => [IconUnreadable icon_path e]
         end
  end.

(** The [if url:] block. *)
Definition check_url (manifest_path : string) (url declared_hash : json)
    : list defect :=
  if truthy url then
    match http_get w url with
    | Raise e => [DownloadFailed manifest_path e]
    | Return r =>
        if negb (status_code r =? 200)
        then [UrlStatus manifest_path (status_code r)]
        else
          let actual_hash := sha256_bytes (content r) in
          if eq_str declared_hash actual_hash then []
          else [HashMismatch manifest_path declared_hash actual_hash]
    end
  else [].

(** One iteration of [for manifest_path in manifests]: the defects it
    appends, or [None] when it raises an exception nothing catches. *)
Definition check_manifest (manifest_path : string) : option (list defect) :=
  match fs w manifest_path with
  | NoFile => Some [FileNotFound manifest_path]
  | Unreadable e => Some [InvalidJSON manifest_path e]
  | Content bytes =>
      match json_loads bytes with
      | Raise e => Some [InvalidJSON manifest_path e]
      | Return manifest =>
          field_errs ← check_fields manifest_path manifest REQUIRED_FIELDS;
          package ← py_get manifest "package";
          url ← py_get manifest "url";
          declared_hash ← py_get manifest "sha256";
          Some (field_errs ++ check_icon manifest_path package
                ++ check_url manifest_path url declared_hash)
      end
  end.

Fixpoint check_manifests (manifests : list string) : option (list defect) :=
  match manifests with
  | [] => Some []
  | manifest_path :: rest =>
      errs ← check_manifest manifest_path;
      more ← check_manifests rest;
      Some (errs ++ more)
  end.

Definition failure_comment (errors : list defect) : string :=
  "Manifest validation failed:" +:+ nl +:+ nl
  +:+ join nl (map render errors)
  +:+ nl +:+ nl
  +:+ "Fix the issues and comment `@bot check` to re-run validation.".

Definition success_comment : string :=
  "✅ Manifest validation successful." +:+ nl
  +:+ "The manifest is now locked for moderator review.".

(** [not pr_number] *)
Definition no_pr (pr_number : option Z) : bool :=
  match pr_number with
  | None => true
  | Some n => n =? 0
  end.

Definition main (env : environ) (pr_number : option Z) : script unit :=
  if unset (GITHUB_TOKEN env) || unset (GITHUB_REPOSITORY env)
  then sys_exit 1
  else if no_pr pr_number then sys_exit 0
  else
    let manifests := List.filter is_manifest (changed_files w) in
    match manifests with
    | [] => sys_exit 0
    | _ :: _ =>
        match check_manifests manifests with
        | None => uncaught
        | Some errors =>
            labels ← get_labels;
            match errors with
            | _ :: _ =>
                when (has_label ON_REVIEW labels)
                  (remove_from_labels ON_REVIEW);;
                when (negb (has_label INVALID_MANIFEST labels))
                  (add_to_labels INVALID_MANIFEST);;
                create_comment w (failure_comment errors);;
                sys_exit 1
            | [] =>
                when (has_label INVALID_MANIFEST labels)
                  (remove_from_labels INVALID_MANIFEST);;
                when (negb (has_label ON_REVIEW labels))
                  (add_to_labels ON_REVIEW);;
                create_comment w success_comment;;
                sys_exit 0
            end
        end
    end.

End validator.
End Validator.

(** * bot_commands.py *)

Module Dispatcher.

Definition MARKER_START_DEFAULT : string := "<!-- MANIFEST_HASHES".
Definition MARKER_END : string := "END MANIFEST_HASHES -->".

(** What [main] extracts from the triggering event before it dispatches.
    The two scripts find the thread's number with functions of their own
    ([get_pr_number_from_event] here, [get_pr_number] in the validator), so
    each result is an input. *)
Record event : Type := Event {
  pr_number : option Z;
  comment_body : string;
  comment_user : string;
  (** the environment variable [BOT_USER], with its default *)
  MODERATOR : string;
  (** the number the validator finds when run as a subprocess *)
  validator_pr_number : option Z
}.

Section dispatcher.
Context `{PyRuntime} (w : world).

(** The body of the [try] in [find_manifest_hash_comment]. *)
Definition read_hashes (MARKER_START body : string) : raised json :=
  match String.index 0 MARKER_START body with
  | None => Raise "substring not found"
  | Some i =>
      let start := (i + String.length MARKER_START)%nat in
      match String.index start MARKER_END body with
      | None => Raise "substring not found"
      | Some end_ =>
          let json_text := strip (String.substring start (end_ - start) body) in
          json_loads json_text
      end
  end.

(** The loop of [find_manifest_hash_comment], over the comments already
    reversed. *)
Fixpoint scan_comments (MARKER_START : string) (cs : list comment)
    : option comment * json :=
  match cs with
  | [] => (None, JNull)
  | c :: older =>
      let body := default EmptyString (body c) in
      if contains MARKER_START body then
        match read_hashes MARKER_START body with
        | Return data => (Some c, data)
        | Raise _ => scan_comments MARKER_START older
        end
      else scan_comments MARKER_START older
  end.

Definition find_manifest_hash_comment (comments : list comment)
    (MARKER_START : string) : option comment * json :=
  scan_comments MARKER_START (rev comments).

(** The value [compute_local_hashes] stores for one path. *)
Definition hash_file (p : string) : option string :=
  match fs w p with
  | Content bytes => Some (sha256_hexdigest bytes)
  | NoFile | Unreadable _ => None
  end.

Definition compute_local_hashes (manifest_paths : list string)
    : gmap string (option string) :=
  foldl (fun result p => <[ p := hash_file p ]> result) ∅ manifest_paths.

Definition MISSING_IN_CHECKOUT : string := ": current file missing in checkout".
Definition CHANGED_AFTER_VALIDATION : string := ": file changed after validation".

(** One iteration of the comparison loop on [(mismatch, mismatch_msgs)];
    [None] when [stored_hashes.get] raises. *)
Definition compare_step (stored_hashes : json)
    (local_hashes : gmap string (option string))
    (st : bool * list string) (p : string) : option (bool * list string) :=
  stored ← py_get stored_hashes p;
  let current := default None (local_hashes !! p) in
  match current with
  | None => Some (true, st.2 ++ [p +:+ MISSING_IN_CHECKOUT])
  | Some digest =>
      if String.eqb digest EmptyString
      then Some (true, st.2 ++ [p +:+ MISSING_IN_CHECKOUT])
      else if negb (eq_str stored digest)
      then Some (true, st.2 ++ [p +:+ CHANGED_AFTER_VALIDATION])
      else Some st
  end.

Fixpoint compare_hashes (stored_hashes : json)
    (local_hashes : gmap string (option string))
    (st : bool * list string) (manifest_paths : list string)
    : option (bool * list string) :=
  match manifest_paths with
  | [] => Some st
  | p :: rest =>
      st' ← compare_step stored_hashes local_hashes st p;
      compare_hashes stored_hashes local_hashes st' rest
  end.

Definition running_comment (comment_user : string) : string :=
  "🔁 Running manifest validation as requested by @" +:+ comment_user
  +:+ "...".
Definition completed_comment : string := "✅ Validation completed.".
Definition completed_with_errors_comment : string :=
  "❌ Validation completed with errors. See above comments.".
Definition only_moderator_comment (moderator : string) : string :=
  "❌ Only @" +:+ moderator +:+ " can approve or deny PRs.".
Definition not_on_review_comment : string :=
  "❌ This PR is not marked 'On review'. Approval is not allowed. Please ensure the manifest is validated and locked before approving.".
Definition no_stored_hashes_comment : string :=
  "❌ No stored manifest hashes found. The PR must be validated with `@bot check` first.".
Definition changed_comment (mismatch_msgs : list string) : string :=
  "❌ Cannot proceed: manifests have changed since validation:" +:+ nl +:+ nl
  +:+ join nl mismatch_msgs
  +:+ nl +:+ nl +:+ "Please run `@bot check` again.".
Definition merged_comment : string := "✅ PR approved and merged by moderator.".
Definition merge_failed_comment (e : string) : string :=
  "❌ Failed to merge PR: " +:+ e.
Definition closed_comment : string := "❌ PR rejected and closed by moderator.".
Definition close_failed_comment (e : string) : string :=
  "❌ Failed to close PR: " +:+ e.
Definition unknown_comment : string :=
  "ℹ️ Unknown command. Supported commands: `@bot check`, `@bot allow`, `@bot deny`.".

(** The [subprocess.run] of the validator script with the environment of
    the dispatcher: the validator runs to its end on the same thread and
    [res.returncode] is its exit status. *)
Definition run_validator (env : environ) (ev : event) : script Z :=
  fun h =>
    let '(o, h') := run (Validator.main w env (validator_pr_number ev)) h in
    (Next (exit_status o), h').

(** The end of [main]: the merge or close, once the command has passed
    every check. *)
Definition allow_or_deny (comment_body : string) : script unit :=
  (if contains "@bot allow" comment_body then
     merged ← pr_merge w;
     match merged with
     | Return _ =>
         remove_from_labels ON_REVIEW;;
         add_to_labels APPROVED;;
         create_comment w merged_comment
     | Raise e =>
         create_comment w (merge_failed_comment e);;
         sys_exit 1
     end
   else
     closed ← pr_close w;
     match closed with
     | Return _ =>
         remove_from_labels ON_REVIEW;;
         add_to_labels REJECTED;;
         create_comment w closed_comment
     | Raise e =>
         create_comment w (close_failed_comment e);;
         sys_exit 1
     end);;
  sys_exit 0.

(** The part of [main] behind the moderator check: the label check, the
    ledger lookup and the comparison of the stored with the current hashes. *)
Definition approval_gate (comment_body : string) : script unit :=
  labels ← get_labels;
  if negb (has_label ON_REVIEW labels) then
    create_comment w not_on_review_comment;;
    sys_exit 0
  else
    comments ← get_comments;
    let '(marker_comment, stored_hashes) :=
      find_manifest_hash_comment comments MARKER_START_DEFAULT in
    match stored_hashes with
    | JNull =>
        create_comment w no_stored_hashes_comment;;
        sys_exit 0
    | _ =>
        let manifest_paths := List.filter is_manifest (changed_files w) in
        let local_hashes := compute_local_hashes manifest_paths in
        match compare_hashes stored_hashes local_hashes (false, [])
                manifest_paths with
        | None => uncaught
        | Some (mismatch, mismatch_msgs) =>
            if mismatch then
              create_comment w (changed_comment mismatch_msgs);;
              remove_from_labels ON_REVIEW;;
              add_to_labels INVALID_MANIFEST;;
              sys_exit 0
            else allow_or_deny comment_body
        end
    end.

Definition main (env : environ) (ev : event) : script unit :=
  if unset (GITHUB_TOKEN env) then sys_exit 1
  else if unset (GITHUB_REPOSITORY env) then sys_exit 1
  else
    match pr_number ev with
    | None => sys_exit 0
    | Some _ =>
        let comment_body := strip (comment_body ev) in
        if negb (contains "@bot" comment_body) then sys_exit 0
        else if contains "@bot check" comment_body then
          create_comment w (running_comment (comment_user ev));;
          returncode ← run_validator env ev;
          (if returncode =? 0
           then create_comment w completed_comment
           else create_comment w completed_with_errors_comment);;
          sys_exit 0
        else if contains "@bot allow" comment_body
                || contains "@bot deny" comment_body then
          if negb (String.eqb (comment_user ev) (MODERATOR ev)) then
            create_comment w (only_moderator_comment (MODERATOR ev));;
            sys_exit 0
          else approval_gate comment_body
        else
          create_comment w unknown_comment;;
          sys_exit 0
    end.

End dispatcher.
End Dispatcher.

(** * Sample threads and checkouts

    Concrete data on which the theorems below are exercised.  The library
    interface is instantiated by tabulating [json.loads] and SHA-256 on the
    texts and byte strings that occur in these samples. *)

Module Sample.

Definition dq : string := String (ascii_of_nat 34) EmptyString.
Definition quoted (s : string) : string := dq +:+ s +:+ dq.
Definition member (key value : string) : string := quoted key +:+ ": " +:+ value.
Definition object (members : list string) : string :=
  "{" +:+ join ", " members +:+ "}".

Definition HELLO_SHA256 : string :=
  "2cf24dba5fb0a30e26e83b2ac5b9e29e1b161e5c1fa7425e73043362938b9824".
Definition DEMO_URL : string := "https://example.org/demo.bin".

(** A manifest file with every required field; [name] is a JSON literal. *)
Definition manifest_text (name version : string) : string :=
  object
    [ member "package" (quoted "demo"); member "name" name;
      member "author" (quoted "ann"); member "version" (quoted version);
      member "category" (quoted "tools");
      member "description" (quoted "A demo");
      member "url" (quoted DEMO_URL); member "sha256" (quoted HELLO_SHA256);
      member "api_level" (quoted "1"); member "permissions" (quoted "none");
      member "min_os_version" (quoted "1.0") ].

Definition manifest_dict (name : json) (version : string) : gmap string json :=
  list_to_map
    [ ("package", JStr "demo"); ("name", name); ("author", JStr "ann");
      ("version", JStr version); ("category", JStr "tools");
      ("description", JStr "A demo"); ("url", JStr DEMO_URL);
      ("sha256", JStr HELLO_SHA256); ("api_level", JStr "1");
      ("permissions", JStr "none"); ("min_os_version", JStr "1.0") ].

Definition demo_v1 : string := manifest_text (quoted "Demo") "1.0".
Definition demo_v2 : string := manifest_text (quoted "Demo") "1.1".
Definition demo_null_name : string := manifest_text "null" "1.0".

Definition DEMO_V1_SHA256 : string :=
  "1441582f5e0e51946d30a239bee2469248c9f2bd7d784b3c92481edfeeb04f63".
Definition DEMO_V2_SHA256 : string :=
  "80631f6fd34e49bd276532a83e9f591a911d9dfd77f809efca591724b958fe74".
Definition EMPTY_SHA256 : string :=
  "e3b0c44298fc1c149afbf4c8996fb92427ae41e4649b934ca495991b7852b855".

Definition DEMO_PATH : string := "manifests/demo.json".

(** The ledger text recording [demo_v1] for [DEMO_PATH]. *)
Definition ledger_text : string :=
  object [ member DEMO_PATH (quoted DEMO_V1_SHA256) ].

Definition EXPECTING_VALUE : string :=
  "Expecting value: line 1 column 1 (char 0)".

Definition sample_loads (text : string) : raised json :=
  if String.eqb text demo_v1 then Return (JObj (manifest_dict (JStr "Demo") "1.0"))
  else if String.eqb text demo_v2
  then Return (JObj (manifest_dict (JStr "Demo") "1.1"))
  else if String.eqb text demo_null_name
  then Return (JObj (manifest_dict JNull "1.0"))
  else if String.eqb text ledger_text
  then Return (JObj {[ DEMO_PATH := JStr DEMO_V1_SHA256 ]})
  else if String.eqb text "{}" then Return (JObj ∅)
  else if String.eqb text "null" then Return JNull
  else Raise EXPECTING_VALUE.

Definition sample_sha256 (data : string) : string :=
  if String.eqb data "hello" then HELLO_SHA256
  else if String.eqb data demo_v1 then DEMO_V1_SHA256
  else if String.eqb data demo_v2 then DEMO_V2_SHA256
  else EMPTY_SHA256.

Definition sample_repr (v : json) : string :=
  match v with
  | JArr _ => "[]"
  | _ => "{}"
  end.

Definition sample_runtime : PyRuntime := {|
  json_loads := sample_loads;
  sha256_hexdigest := sample_sha256;
  py_repr := sample_repr
|}.

Definition good_icon : icon_file := Icon 1024 (Return (Image "PNG" 32 32)).
Definition bad_icon : icon_file := Icon 4000 (Return (Image "JPEG" 64 64)).

(** A checkout holding [DEMO_PATH] with the given bytes, a conforming icon
    and a download that answers 200 with the bytes [hello]. *)
Definition demo_world (demo : file_state) (icon : option icon_file)
    (files : list string) : world := {|
  changed_files := files;
  fs := fun p => if String.eqb p DEMO_PATH then demo
                 else if String.eqb p "manifests/bad.json"
                 then Content "not json"
                 else NoFile;
  icon_at := fun p => if String.eqb p "icons/demo.png" then icon else None;
  http_get := fun url =>
    if eq_str url DEMO_URL then Return (Response 200 "hello")
    else Raise "connection refused";
  merge_error := None;
  close_error := None;
  bot_login := "github-actions[bot]"
|}.

Definition env : environ := Environ (Some "token") (Some "QuietOS-dev/Store1").

Definition fresh : host := MkHost ∅ [] [].

(** A thread under review whose only comment is [c]. *)
Definition under_review (cs : list comment) : host :=
  MkHost {[ ON_REVIEW ]} cs [].

Definition marker_comment (author text : string) : comment :=
  Comment author
    (Some (Dispatcher.MARKER_START_DEFAULT +:+ nl +:+ text +:+ nl
           +:+ Dispatcher.MARKER_END)).

Definition command (actor text : string) : Dispatcher.event := {|
  Dispatcher.pr_number := Some 7;
  Dispatcher.comment_body := text;
  Dispatcher.comment_user := actor;
  Dispatcher.MODERATOR := "Artyomka628";
  Dispatcher.validator_pr_number := Some 7
|}.

End Sample.

(** * Vocabulary of the properties *)

Module Workflow.
Import Dispatcher.

(** [a] occurs in [s]. *)
Fixpoint occurs (a : ascii) (s : string) : bool :=
  match s with
  | EmptyString => false
  | String b s' => Ascii.eqb a b || occurs a s'
  end.

(** The characters of an account name on the host: letters, digits and the
    hyphen. *)
Definition is_login_char (a : ascii) : bool :=
  let n := nat_of_ascii a in
  ((48 <=? n) && (n <=? 57) || (65 <=? n) && (n <=? 90)
   || (97 <=? n) && (n <=? 122) || (n =? 45))%nat.

Fixpoint is_login (s : string) : bool :=
  match s with
  | EmptyString => true
  | String a s' => is_login_char a && is_login s'
  end.

(** Both credentials are set. *)
Definition configured (env : environ) : bool :=
  negb (unset (GITHUB_TOKEN env)) && negb (unset (GITHUB_REPOSITORY env)).

(** The run gets as far as reading the command: credentials are set and the
    event names a thread. *)
Definition ready (env : environ) (ev : event) : bool :=
  configured env && bool_decide (is_Some (pr_number ev)).

(** The comment is handled as a check command. *)
Definition check_command (text : string) : bool :=
  contains "@bot check" (strip text).

(** The comment is handled as an allow command: [main] tests for check
    first, and for allow before deny. *)
Definition allow_command (text : string) : bool :=
  negb (contains "@bot check" (strip text))
  && contains "@bot allow" (strip text).

Definition deny_command (text : string) : bool :=
  negb (contains "@bot check" (strip text))
  && negb (contains "@bot allow" (strip text))
  && contains "@bot deny" (strip text).

Definition moderation_command (text : string) : bool :=
  allow_command text || deny_command text.

Definition by_moderator (ev : event) : bool :=
  String.eqb (comment_user ev) (MODERATOR ev).

(** The host state after one more comment by the bot. *)
Definition post (w : world) (text : string) (h : host) : host :=
  MkHost (labels h) (comments h ++ [Comment (bot_login w) (Some text)])
    (calls h).

(** The thread's ledger entry as the approval check reads it. *)
Definition lookup `{PyRuntime} (h : host) : json :=
  (find_manifest_hash_comment (comments h) MARKER_START_DEFAULT).2.

(** What one comment contributes to the lookup: the mapping it carries, if
    it has the marker and its delimited text parses. *)
Definition carries `{PyRuntime} (c : comment) : option json :=
  let body := default EmptyString (body c) in
  if contains MARKER_START_DEFAULT body then
    match read_hashes MARKER_START_DEFAULT body with
    | Return data => Some data
    | Raise _ => None
    end
  else None.

(** The line the comparison loop reports for path [p] against the recorded
    mapping [d], if it reports one. *)
Definition mismatch_msg `{PyRuntime} (w : world) (d : gmap string json)
    (p : string) : option string :=
  match hash_file w p with
  | None => Some (p +:+ MISSING_IN_CHECKOUT)
  | Some digest =>
      if String.eqb digest EmptyString then Some (p +:+ MISSING_IN_CHECKOUT)
      else if eq_str (default JNull (d !! p)) digest then None
      else Some (p +:+ CHANGED_AFTER_VALIDATION)
  end.

(** The thread after a merge that succeeded. *)
Definition merged (w : world) (h : host) : host :=
  MkHost (labels h ∖ {[ ON_REVIEW ]} ∪ {[ APPROVED ]})
    (comments h ++ [Comment (bot_login w) (Some merged_comment)])
    (calls h ++ [Merge]).

(** The thread after a merge that the host refused with [e]. *)
Definition merge_failed (w : world) (e : string) (h : host) : host :=
  MkHost (labels h)
    (comments h ++ [Comment (bot_login w) (Some (merge_failed_comment e))])
    (calls h ++ [Merge]).

(** The thread after the integrity lock has tripped. *)
Definition demoted (w : world) (msgs : list string) (h : host) : host :=
  MkHost (labels h ∖ {[ ON_REVIEW ]} ∪ {[ INVALID_MANIFEST ]})
    (comments h ++ [Comment (bot_login w) (Some (changed_comment msgs))])
    (calls h).

(** The thread after a validation run without defects. *)
Definition locked (w : world) (h : host) : host :=
  MkHost (labels h ∖ {[ INVALID_MANIFEST ]} ∪ {[ ON_REVIEW ]})
    (comments h ++ [Comment (bot_login w) (Some Validator.success_comment)])
    (calls h).

(** The thread after a validation run that found [errors]. *)
Definition invalidated `{PyRuntime} (w : world)
    (errors : list Validator.defect) (h : host) : host :=
  MkHost (labels h ∖ {[ ON_REVIEW ]} ∪ {[ INVALID_MANIFEST ]})
    (comments h
     ++ [Comment (bot_login w) (Some (Validator.failure_comment errors))])
    (calls h).

(** The changed files both scripts look at. *)
Definition manifests_of (w : world) : list string :=
  List.filter is_manifest (changed_files w).

(** A required field that is not a key of the manifest. *)
Definition absent (d : gmap string json) (field : string) : bool :=
  negb (bool_decide (is_Some (d !! field))).

End Workflow.

(** * Finding the thread and the command

    What both scripts do between their start and the dispatch: reading the
    event file, finding the number of the thread, and reading the comment. *)

Module Events.

(** [int(s)] of a string and [int(x)] of a float given by its [repr];
    [None] when it raises (the scripts never look at the exception). *)
Class PyInt : Type := {
  int_of_str : string -> option Z;
  int_of_float : string -> option Z
}.

(** [v[key]] for a string key.  [None] is the [KeyError] of a dict that
    lacks the key, or the [TypeError] of a value that is not a dict. *)
Definition py_getitem (v : json) (key : string) : option json :=
  match v with
  | JObj d => d !! key
  | _ => None
  end.

(** [int(v)].  [None] is the exception it raises. *)
Definition py_int `{PyInt} (v : json) : option Z :=
  match v with
  | JInt z => Some z
  | JBool b => Some (if b then 1 else 0)
  | JFloat _ r => int_of_float r
  | JStr s => int_of_str s
  | JNull | JArr _ | JObj _ => None
  end.

(** [s.split(sep)] for a separator of one character. *)
Fixpoint split (sep : ascii) (s : string) : list string :=
  match s with
  | EmptyString => [EmptyString]
  | String c s' =>
      if Ascii.eqb c sep then EmptyString :: split sep s'
      else match split sep s' with
           | [] => [String c EmptyString]
           | part :: parts => String c part :: parts
           end
  end.

(** What both scripts read of the process environment to find the thread
    and the comment. *)
Record variables : Type := Variables {
  GITHUB_EVENT_PATH : option string;
  GITHUB_REF : option string;
  GITHUB_EVENT_COMMENT_BODY : option string;
  GITHUB_ACTOR : option string
}.

Section events.
Context `{PyRuntime} `{PyInt} (w : world).

(** [get_event_payload] of the dispatcher; [load_event] of the validator is
    the same function.  [None] is an exception of [open] or [json.load]. *)
Definition get_event_payload (vars : variables) : option json :=
  match GITHUB_EVENT_PATH vars with
  | None => Some (JObj ∅)
  | Some event_path =>
      if String.eqb event_path EmptyString then Some (JObj ∅)
      else match fs w event_path with
           | NoFile => Some (JObj ∅)
           | Unreadable _ => None
           | Content bytes =>
               match json_loads bytes with
               | Return payload => Some payload
               | Raise _ => None
               end
           end
  end.

Definition load_event (vars : variables) : option json :=
  get_event_payload vars.

(** The fallback of the dispatcher on [GITHUB_REF]: a number that does not
    parse is passed over. *)
Definition pr_number_from_ref (vars : variables) : option (option Z) :=
  let ref := default EmptyString (GITHUB_REF vars) in
  if startswith ref "refs/pull/" then
    let parts := split "/" ref in
    if (3 <=? length parts)%nat then
      part ← parts !! 2%nat;
      Some (int_of_str part)
    else Some None
  else Some None.

(** [get_pr_number_from_event] of the dispatcher.  The outer [None] is an
    exception nothing catches, the inner one the value [None]. *)
Definition get_pr_number_from_event (payload : json) (vars : variables)
    : option (option Z) :=
  has_issue ← py_in "issue" payload;
  use_issue ←
    (if has_issue : bool then
       issue ← py_getitem payload "issue";
       if truthy issue then py_in "number" issue else Some false
     else Some false);
  if use_issue : bool then
    issue ← py_getitem payload "issue";
    number ← py_getitem issue "number";
    n ← py_int number;
    Some (Some n)
  else pr_number_from_ref vars.

(** [get_pr_number] of the validator.  [None] is an exception nothing
    catches; the value [None] is [JNull]. *)
Definition get_pr_number (event : json) (vars : variables) : option json :=
  has_pull_request ← py_in "pull_request" event;
  if has_pull_request : bool then
    pull_request ← py_getitem event "pull_request";
    py_getitem pull_request "number"
  else
    let ref := default EmptyString (GITHUB_REF vars) in
    if startswith ref "refs/pull/" then
      part ← split "/" ref !! 2%nat;
      n ← int_of_str part;
      Some (JInt n)
    else Some JNull.

(** [d.get(key, default)] on a value that has to be a dict. *)
Definition py_get_default (v : json) (key : string) (default_value : json)
    : option json :=
  match v with
  | JObj d => Some (default default_value (d !! key))
  | _ => None
  end.

(** The comment text and its author as [main] of the dispatcher reads them,
    before the text is stripped.  [None] is an exception nothing catches. *)
Definition read_comment (payload : json) (vars : variables)
    : option (json * json) :=
  has_comment ← py_in "comment" payload;
  use_comment ←
    (if has_comment : bool then
       comment ← py_getitem payload "comment";
       Some (truthy comment)
     else Some false);
  if use_comment : bool then
    comment ← py_getitem payload "comment";
    comment_body ← py_get_default comment "body" (JStr EmptyString);
    user ← py_get_default comment "user" (JObj ∅);
    comment_user ← py_get_default user "login" (JStr EmptyString);
    Some (comment_body, comment_user)
  else
    Some (JStr (default EmptyString (GITHUB_EVENT_COMMENT_BODY vars)),
          JStr (default EmptyString (GITHUB_ACTOR vars))).

(** The inputs of [Dispatcher.main] for a payload whose comment text and
    author are strings and whose thread numbers are integers or [None]. *)
Definition event_of (payload : json) (vars : variables) (moderator : string)
    : option Dispatcher.event :=
  pr_number ← get_pr_number_from_event payload vars;
  validator_pr_number ←
    match get_pr_number payload vars with
    | Some JNull => Some None
    | Some (JInt n) => Some (Some n)
    | _ => None
    end;
  match pr_number, read_comment payload vars with
  | None, _ =>
      Some (Dispatcher.Event None EmptyString EmptyString moderator
              validator_pr_number)
  | Some n, Some (JStr comment_body, JStr comment_user) =>
      Some (Dispatcher.Event (Some n) comment_body comment_user moderator
              validator_pr_number)
  | Some _, _ => None
  end.

End events.
End Events.

(** The thread after a close that succeeded, and after one the host
    refused. *)
Definition closed (w : world) (h : host) : host :=
  MkHost (labels h ∖ {[ ON_REVIEW ]} ∪ {[ REJECTED ]})
    (comments h ++ [Comment (bot_login w) (Some Dispatcher.closed_comment)])
    (calls h ++ [Close]).

Definition close_failed (w : world) (e : string) (h : host) : host :=
  MkHost (labels h)
    (comments h
     ++ [Comment (bot_login w) (Some (Dispatcher.close_failed_comment e))])
    (calls h ++ [Close]).

(** A path of the checkout whose digest the mapping [d] records. *)
Definition recorded `{PyRuntime} (w : world) (d : gmap string json)
    (p : string) : Prop :=
  exists bytes,
    fs w p = Content bytes
    /\ sha256_hexdigest bytes <> EmptyString
    /\ d !! p = Some (JStr (sha256_hexdigest bytes)).

(** An icon the validator finds nothing to say about. *)
Definition conforming (icon : icon_file) : Prop :=
  getsize icon <= Validator.ICON_MAX_SIZE
  /\ exists img,
       image_open icon = Return img
       /\ format img = "PNG"
       /\ width img = Validator.ICON_WIDTH
       /\ height img = Validator.ICON_HEIGHT.

(** A download the validator finds nothing to say about: none asked for, or
    a 200 whose body hashes to the declared string. *)
Definition verified `{PyRuntime} (w : world) (url declared_hash : json)
    : Prop :=
  truthy url = false
  \/ exists r,
       http_get w url = Return r
       /\ status_code r = 200
       /\ declared_hash = JStr (sha256_hexdigest (content r)).

(** The value of a string of decimal digits. *)
Fixpoint digits_value (acc : Z) (s : string) : option Z :=
  match s with
  | EmptyString => Some acc
  | String c s' =>
      let n := nat_of_ascii c in
      if ((48 <=? n) && (n <=? 57))%nat
      then digits_value (10 * acc + Z.of_nat (n - 48)) s'
      else None
  end.

(** A sample of [int]: exact on the empty string and on strings of decimal
    digits, which is all the samples hold. *)
Definition sample_int : Events.PyInt := {|
  Events.int_of_str := fun s =>
    match s with
    | EmptyString => None
    | _ => digits_value 0 s
    end;
  Events.int_of_float := fun _ => None
|}.

(** * String search *)

Section strings.
Import Workflow.

Lemma prefix_trans (p q s : string) :
  String.prefix p q = true -> String.prefix q s = true ->
  String.prefix p s = true.
Proof.
  revert q s. induction p as [|a p IH]; intros q s Hpq Hqs; [by destruct s|].
  destruct q as [|b q]; [done|]. destruct s as [|c s]; [done|].
  simpl in *. destruct (ascii_dec a b) as [->|]; [|done].
  destruct (ascii_dec b c) as [->|]; [|done]. eauto.
Qed.

Lemma prefix_empty (p : string) :
  String.prefix p EmptyString = true -> p = EmptyString.
Proof. by destruct p. Qed.

Lemma prefix_app (x b : string) : String.prefix x (x +:+ b) = true.
Proof.
  induction x as [|a x IH]; simpl; [by destruct b|].
  by destruct (ascii_dec a a).
Qed.

Lemma contains_cons (x : string) (c : ascii) (s : string) :
  contains x (String c s) = String.prefix x (String c s) || contains x s.
Proof.
  unfold contains. change (String.index 0 x (String c s)) with
    (if String.prefix x (String c s) then Some 0%nat
     else match String.index 0 x s with
          | Some n => Some (S n)
          | None => None
          end).
  destruct (String.prefix x (String c s)); [done|].
  by destruct (String.index 0 x s).
Qed.

(** A longer needle is found only where its prefix is found. *)
Lemma contains_prefix (p q s : string) :
  String.prefix p q = true -> contains q s = true -> contains p s = true.
Proof.
  intros Hpq. induction s as [|b s IH].
  - unfold contains. simpl. destruct q; [|done].
    intros _. by rewrite (prefix_empty p Hpq).
  - rewrite !contains_cons. intros [Hq|Hq]%orb_true_iff.
    + by rewrite (prefix_trans p q _ Hpq Hq).
    + rewrite (IH Hq). apply orb_true_r.
Qed.

Lemma contains_here (x b : string) : contains x (x +:+ b) = true.
Proof.
  destruct (x +:+ b) as [|c s] eqn:E.
  - destruct x; [done|discriminate].
  - by rewrite contains_cons, <- E, prefix_app.
Qed.

Lemma contains_later (x : string) (c : ascii) (s : string) :
  contains x s = true -> contains x (String c s) = true.
Proof. rewrite contains_cons. intros ->. apply orb_true_r. Qed.

(** A needle found in a text is found in any text built around it. *)
Lemma contains_app_r (x a s : string) :
  contains x s = true -> contains x (a +:+ s) = true.
Proof.
  intros Hs. induction a as [|c a IH]; [done|].
  exact (contains_later x c _ IH).
Qed.

Lemma contains_empty (s : string) : contains EmptyString s = true.
Proof. by destruct s. Qed.

Lemma contains_app_l (x s b : string) :
  contains x s = true -> contains x (s +:+ b) = true.
Proof.
  induction s as [|c s IH].
  - destruct x; [|done]. intros _. apply contains_empty.
  - change (String c s +:+ b) with (String c (s +:+ b)).
    rewrite !contains_cons. intros [Hp|Hs]%orb_true_iff.
    + rewrite (prefix_trans x (String c s) (String c (s +:+ b)) Hp
                 (prefix_app (String c s) b)). done.
    + rewrite (IH Hs). apply orb_true_r.
Qed.

Lemma contains_refl (x : string) : contains x x = true.
Proof.
  destruct x as [|c x]; [done|]. rewrite contains_cons.
  assert (String.prefix (String c x) (String c x) = true) as ->; [|done].
  induction (String c x) as [|a y IH]; [done|].
  simpl. by destruct (ascii_dec a a).
Qed.

(** Every joined part is found in the joined text. *)
Lemma contains_join (sep line : string) (parts : list string) :
  line ∈ parts -> contains line (join sep parts) = true.
Proof.
  unfold join. induction parts as [|x parts IH]; [by intros ?%elem_of_nil|].
  intros [->|Hin]%elem_of_cons.
  - destruct parts as [|y parts]; [apply contains_refl|].
    apply contains_here.
  - destruct parts as [|y parts]; [by apply elem_of_nil in Hin|].
    change (String.concat sep (x :: y :: parts))
      with (x +:+ sep +:+ String.concat sep (y :: parts)).
    do 2 apply contains_app_r. by apply IH.
Qed.

(** A needle is not found in a text that lacks its first character. *)
Lemma contains_no_first_char (a : ascii) (p s : string) :
  occurs a s = false -> contains (String a p) s = false.
Proof.
  induction s as [|b s IH]; [done|]. simpl.
  intros [Hab Hs]%orb_false_elim. rewrite contains_cons, (IH Hs), orb_false_r.
  simpl. destruct (ascii_dec a b) as [->|_]; [|done].
  by rewrite Ascii.eqb_refl in Hab.
Qed.

Lemma occurs_app (a : ascii) (s t : string) :
  occurs a (s +:+ t) = occurs a s || occurs a t.
Proof.
  induction s as [|b s IH]; simpl; [done|]. by rewrite IH, orb_assoc.
Qed.

Lemma is_login_no_lt (s : string) :
  is_login s = true -> occurs "<"%char s = false.
Proof.
  induction s as [|b s IH]; [done|]. cbn [occurs is_login].
  intros [Hb Hs]%andb_true_iff. rewrite (IH Hs), orb_false_r.
  destruct (Ascii.eqb_spec "<"%char b) as [<-|]; [|done].
  by vm_compute in Hb.
Qed.

End strings.

(** * The script monad *)

Ltac script_simpl :=
  unfold run, when, mbind, script_bind, mret, script_ret, sys_exit, uncaught,
    get_labels, get_comments, remove_from_labels, add_to_labels,
    create_comment, pr_merge, pr_close;
  cbn [fst snd labels comments calls].

(** Two host states that differ at most in how their label sets are
    written. *)
Ltac relabelled :=
  do 2 f_equal; apply leibniz_equiv; unfold ON_REVIEW, INVALID_MANIFEST in *;
  set_solver.

Lemma has_label_true (l : string) (ls : gset string) :
  has_label l ls = true <-> l ∈ ls.
Proof. unfold has_label. by rewrite bool_decide_eq_true. Qed.

Lemma has_label_false (l : string) (ls : gset string) :
  has_label l ls = false <-> l ∉ ls.
Proof. unfold has_label. by rewrite bool_decide_eq_false. Qed.

(** * The ledger lookup *)

Section ledger.
Context `{PyRuntime}.
Import Dispatcher Workflow.

Lemma scan_cons (c : comment) (older : list comment) :
  scan_comments MARKER_START_DEFAULT (c :: older) =
  match carries c with
  | Some data => (Some c, data)
  | None => scan_comments MARKER_START_DEFAULT older
  end.
Proof.
  unfold carries. cbn [scan_comments].
  destruct (contains _ _); [|done]. by destruct (read_hashes _ _).
Qed.

Lemma scan_skip (newer rest : list comment) :
  Forall (fun c => carries c = None) newer ->
  scan_comments MARKER_START_DEFAULT (rev newer ++ rest) =
  scan_comments MARKER_START_DEFAULT rest.
Proof.
  intros Hnewer. revert rest.
  induction Hnewer as [|c newer Hc _ IH]; intros rest; [done|].
  cbn [rev]. rewrite <- app_assoc. cbn [app].
  by rewrite IH, scan_cons, Hc.
Qed.

(** The newest comment that carries a mapping decides the lookup. *)
Lemma find_newest (older newer : list comment) (c : comment) (data : json) :
  carries c = Some data ->
  Forall (fun c' => carries c' = None) newer ->
  find_manifest_hash_comment (older ++ c :: newer) MARKER_START_DEFAULT =
  (Some c, data).
Proof.
  intros Hc Hnewer. unfold find_manifest_hash_comment.
  rewrite rev_app_distr. cbn [rev]. rewrite <- app_assoc. cbn [app].
  by rewrite (scan_skip _ _ Hnewer), scan_cons, Hc.
Qed.

Lemma find_none (cs : list comment) :
  Forall (fun c => carries c = None) cs ->
  find_manifest_hash_comment cs MARKER_START_DEFAULT = (None, JNull).
Proof.
  intros Hcs. unfold find_manifest_hash_comment.
  rewrite <- (app_nil_r (rev cs)). by rewrite (scan_skip _ _ Hcs).
Qed.

(** A comment that carries nothing leaves the lookup as it was. *)
Lemma find_snoc_skip (cs : list comment) (c : comment) :
  carries c = None ->
  find_manifest_hash_comment (cs ++ [c]) MARKER_START_DEFAULT =
  find_manifest_hash_comment cs MARKER_START_DEFAULT.
Proof.
  intros Hc. unfold find_manifest_hash_comment.
  rewrite rev_app_distr. cbn [rev app]. by rewrite scan_cons, Hc.
Qed.

Lemma carries_no_marker (author text : string) :
  contains MARKER_START_DEFAULT text = false ->
  carries (Comment author (Some text)) = None.
Proof. unfold carries. cbn [body from_option id]. by intros ->. Qed.

Lemma lookup_post (w : world) (text : string) (h : host) :
  contains MARKER_START_DEFAULT text = false ->
  lookup (post w text h) = lookup h.
Proof.
  intros Ht. unfold lookup, post. cbn [comments].
  by rewrite find_snoc_skip; [|apply carries_no_marker].
Qed.

(** The lookup reads bodies only. *)
Lemma scan_bodies (cs1 cs2 : list comment) :
  map body cs1 = map body cs2 ->
  (scan_comments MARKER_START_DEFAULT cs1).2 =
  (scan_comments MARKER_START_DEFAULT cs2).2.
Proof.
  revert cs2. induction cs1 as [|c1 cs1 IH]; intros [|c2 cs2] Hb;
    try discriminate; [done|].
  injection Hb as Hc Hcs. rewrite !scan_cons.
  assert (carries c1 = carries c2) as -> by (unfold carries; by rewrite Hc).
  destruct (carries c2); [done|]. by apply IH.
Qed.

Lemma find_bodies (cs1 cs2 : list comment) :
  map body cs1 = map body cs2 ->
  (find_manifest_hash_comment cs1 MARKER_START_DEFAULT).2 =
  (find_manifest_hash_comment cs2 MARKER_START_DEFAULT).2.
Proof.
  intros Hb. apply scan_bodies. by rewrite !map_rev, Hb.
Qed.

End ledger.

(** * The validator *)

Section validator_facts.
Context `{PyRuntime} (w : world).
Import Validator Workflow.

Lemma check_manifests_app (l1 l2 : list string) :
  check_manifests w (l1 ++ l2) =
  (e1 ← check_manifests w l1; e2 ← check_manifests w l2; Some (e1 ++ e2)).
Proof.
  induction l1 as [|p l1 IH]; cbn [app check_manifests].
  - by destruct (check_manifests w l2).
  - rewrite IH. destruct (check_manifest w p) as [e|]; [|done].
    destruct (check_manifests w l1) as [e1|]; [|done].
    destruct (check_manifests w l2) as [e2|]; [|done].
    cbn. by rewrite app_assoc.
Qed.

(** On a JSON object the field loop reports the absent keys, in order. *)
Lemma check_fields_obj (p : string) (d : gmap string json)
    (fields : list string) :
  check_fields p (JObj d) fields =
  Some (map (MissingField p) (List.filter (absent d) fields)).
Proof.
  induction fields as [|f fields IH]; [done|].
  cbn [check_fields py_in List.filter]. rewrite IH. unfold absent.
  cbn. by destruct (bool_decide (is_Some (d !! f))).
Qed.

Lemma check_manifest_obj (p bytes : string) (d : gmap string json) :
  fs w p = Content bytes ->
  json_loads bytes = Return (JObj d) ->
  check_manifest w p =
  Some (map (MissingField p) (List.filter (absent d) REQUIRED_FIELDS)
        ++ check_icon w p (default JNull (d !! "package"))
        ++ check_url w p (default JNull (d !! "url"))
             (default JNull (d !! "sha256"))).
Proof.
  intros Hfs Hload. unfold check_manifest. rewrite Hfs, Hload.
  by rewrite check_fields_obj.
Qed.

(** A manifest that parses to anything but an object ends the run with an
    exception: the membership test or the first [get] raises. *)
Lemma check_manifest_not_object (p bytes : string) (v : json) :
  fs w p = Content bytes ->
  json_loads bytes = Return v ->
  (forall d, v <> JObj d) ->
  check_manifest w p = None.
Proof.
  intros Hfs Hload Hv. unfold check_manifest. rewrite Hfs, Hload.
  destruct v as [|b|z|zero r|s|l|d]; try done.
  by destruct (Hv d).
Qed.

Lemma required_fields_nodup : NoDup REQUIRED_FIELDS.
Proof. apply (bool_decide_unpack _). by vm_compute. Qed.

Lemma configured_set (env : environ) :
  configured env = true ->
  unset (GITHUB_TOKEN env) = false /\ unset (GITHUB_REPOSITORY env) = false.
Proof.
  unfold configured. intros [Ht Hr]%andb_true_iff.
  by destruct (unset (GITHUB_TOKEN env)), (unset (GITHUB_REPOSITORY env)).
Qed.

Lemma validator_unconfigured (env : environ) (pr : option Z) (h : host) :
  configured env = false -> run (main w env pr) h = (Exit 1, h).
Proof.
  unfold configured, main.
  by destruct (unset (GITHUB_TOKEN env)), (unset (GITHUB_REPOSITORY env)).
Qed.

Lemma validator_no_pr (env : environ) (pr : option Z) (h : host) :
  configured env = true -> no_pr pr = true ->
  run (main w env pr) h = (Exit 0, h).
Proof.
  intros [Ht Hr]%configured_set Hpr. unfold main. by rewrite Ht, Hr, Hpr.
Qed.

Lemma validator_crash (env : environ) (pr : option Z) (h : host) :
  configured env = true -> no_pr pr = false ->
  check_manifests w (manifests_of w) = None ->
  run (main w env pr) h = (Traceback, h).
Proof.
  intros [Ht Hr]%configured_set Hpr. unfold main, manifests_of.
  rewrite Ht, Hr, Hpr. cbn [orb].
  destruct (List.filter is_manifest (changed_files w)); [done|].
  by intros ->.
Qed.

(** A run without defects: the thread is labelled for review and told so. *)
Lemma validator_clean (env : environ) (pr : option Z) (h : host) :
  configured env = true -> no_pr pr = false ->
  manifests_of w <> [] ->
  check_manifests w (manifests_of w) = Some [] ->
  run (main w env pr) h = (Exit 0, locked w h).
Proof.
  intros [Ht Hr]%configured_set Hpr. unfold main, manifests_of.
  rewrite Ht, Hr, Hpr. cbn [orb].
  destruct (List.filter is_manifest (changed_files w)); [done|].
  intros _ ->. script_simpl. unfold locked.
  destruct (has_label INVALID_MANIFEST (labels h)) eqn:Hinv;
    destruct (has_label ON_REVIEW (labels h)) eqn:Hrev;
    cbn [negb fst snd labels comments calls];
    first [apply has_label_true in Hinv | apply has_label_false in Hinv];
    first [apply has_label_true in Hrev | apply has_label_false in Hrev];
    relabelled.
Qed.

(** A run with defects: the thread is labelled invalid and the report lists
    every defect. *)
Lemma validator_defects (env : environ) (pr : option Z) (h : host)
    (e : defect) (es : list defect) :
  configured env = true -> no_pr pr = false ->
  check_manifests w (manifests_of w) = Some (e :: es) ->
  run (main w env pr) h = (Exit 1, invalidated w (e :: es) h).
Proof.
  intros [Ht Hr]%configured_set Hpr. unfold main, manifests_of.
  rewrite Ht, Hr, Hpr. cbn [orb].
  destruct (List.filter is_manifest (changed_files w)); [done|].
  intros ->. script_simpl. unfold invalidated.
  destruct (has_label INVALID_MANIFEST (labels h)) eqn:Hinv;
    destruct (has_label ON_REVIEW (labels h)) eqn:Hrev;
    cbn [negb fst snd labels comments calls];
    first [apply has_label_true in Hinv | apply has_label_false in Hinv];
    first [apply has_label_true in Hrev | apply has_label_false in Hrev];
    relabelled.
Qed.

Lemma validator_no_manifests (env : environ) (pr : option Z) (h : host) :
  configured env = true -> manifests_of w = [] ->
  run (main w env pr) h = (Exit 0, h).
Proof.
  intros [Ht Hr]%configured_set. unfold main, manifests_of.
  rewrite Ht, Hr. cbn [orb]. intros ->. by destruct (no_pr pr).
Qed.

End validator_facts.

(** * The dispatcher *)

Section dispatcher_facts.
Context `{PyRuntime} (w : world).
Import Dispatcher Workflow.

(** [compute_local_hashes] holds, for every path it was given, the digest of
    that path in the checkout. *)
Lemma foldl_hashes_lookup (paths : list string)
    (acc : gmap string (option string)) (p : string) :
  foldl (fun result q => <[ q := hash_file w q ]> result) acc paths !! p =
  if bool_decide (p ∈ paths) then Some (hash_file w p) else acc !! p.
Proof.
  revert acc. induction paths as [|q paths IH]; intros acc; [done|].
  cbn [foldl]. rewrite IH.
  destruct (decide (p ∈ paths)) as [Hin|Hnin].
  - rewrite !bool_decide_eq_true_2; [done| |done]. by right.
  - rewrite (bool_decide_eq_false_2 _ Hnin).
    destruct (decide (q = p)) as [->|Hne].
    + rewrite lookup_insert_eq, bool_decide_eq_true_2; [done|]. by left.
    + rewrite lookup_insert_ne by done.
      rewrite bool_decide_eq_false_2; [done|].
      intros [?|?]%elem_of_cons; congruence.
Qed.

Lemma compute_local_hashes_lookup (paths : list string) (p : string) :
  p ∈ paths -> compute_local_hashes w paths !! p = Some (hash_file w p).
Proof.
  intros Hin. unfold compute_local_hashes.
  by rewrite foldl_hashes_lookup, bool_decide_eq_true_2.
Qed.

(** One iteration adds the line of its path, if the path is stale. *)
Lemma compare_step_spec (d : gmap string json) (all : list string)
    (st : bool * list string) (p : string) :
  p ∈ all ->
  compare_step (JObj d) (compute_local_hashes w all) st p =
  Some (match mismatch_msg w d p with
        | Some line => (true, st.2 ++ [line])
        | None => st
        end).
Proof.
  intros Hin. unfold compare_step, mismatch_msg. cbn [py_get].
  rewrite (compute_local_hashes_lookup _ _ Hin).
  cbn [mbind option_bind default from_option id].
  destruct (hash_file w p) as [digest|]; [|done].
  destruct (String.eqb digest EmptyString); [done|].
  by destruct (eq_str _ digest).
Qed.

(** The comparison loop collects one line for every stale path, in order,
    and raises the flag as soon as there is one. *)
Lemma compare_hashes_spec (d : gmap string json) (all paths : list string)
    (st : bool * list string) :
  (forall p, p ∈ paths -> p ∈ all) ->
  compare_hashes (JObj d) (compute_local_hashes w all) st paths =
  Some (match omap (mismatch_msg w d) paths with
        | [] => st.1
        | _ :: _ => true
        end,
        st.2 ++ omap (mismatch_msg w d) paths).
Proof.
  revert st. induction paths as [|p paths IH]; intros [m msgs] Hall.
  - cbn. by rewrite app_nil_r.
  - cbn [compare_hashes omap list_omap].
    rewrite compare_step_spec by (apply Hall; by left).
    cbn [mbind option_bind].
    rewrite IH by (intros q Hq; apply Hall; by right).
    fold (omap (mismatch_msg w d) paths).
    destruct (mismatch_msg w d p) as [line|]; [|done].
    cbn [fst snd]. rewrite <- app_assoc.
    by destruct (omap (mismatch_msg w d) paths).
Qed.

Lemma ready_inv (env : environ) (ev : event) :
  ready env ev = true ->
  unset (GITHUB_TOKEN env) = false /\ unset (GITHUB_REPOSITORY env) = false
  /\ exists n, pr_number ev = Some n.
Proof.
  unfold ready. intros [Hc [n Hn]%bool_decide_eq_true]%andb_true_iff.
  destruct (configured_set _ Hc). eauto.
Qed.

(** An allow or deny command passes the mention test and is not taken for a
    check command. *)
Lemma moderation_command_inv (text : string) :
  moderation_command text = true ->
  contains "@bot" (strip text) = true
  /\ contains "@bot check" (strip text) = false
  /\ contains "@bot allow" (strip text) || contains "@bot deny" (strip text)
     = true.
Proof.
  unfold moderation_command, allow_command, deny_command.
  destruct (contains "@bot check" (strip text)); [done|].
  destruct (contains "@bot allow" (strip text)) eqn:Ha.
  - intros _. split; [|done]. exact (contains_prefix "@bot" "@bot allow" _ eq_refl Ha).
  - destruct (contains "@bot deny" (strip text)) eqn:Hd; [|done].
    intros _. split; [|done]. exact (contains_prefix "@bot" "@bot deny" _ eq_refl Hd).
Qed.

Lemma main_check (env : environ) (ev : event) (h : host) :
  ready env ev = true -> check_command (comment_body ev) = true ->
  run (main w env ev) h =
  let '(o, h') :=
    run (Validator.main w env (validator_pr_number ev))
      (post w (running_comment (comment_user ev)) h) in
  (Exit 0,
   post w (if exit_status o =? 0 then completed_comment
           else completed_with_errors_comment) h').
Proof.
  intros (Ht & Hr & n & Hn)%ready_inv Hc. unfold check_command in Hc.
  unfold main. rewrite Ht, Hr, Hn, Hc.
  rewrite (contains_prefix "@bot" "@bot check" _ eq_refl Hc). cbn [negb].
  unfold run_validator, post. script_simpl.
  destruct (Validator.main w env (validator_pr_number ev) _) as [[[]|o] h'];
    cbn [exit_status]; [done|].
  by destruct (exit_status o =? 0).
Qed.

Lemma main_unauthorized (env : environ) (ev : event) (h : host) :
  ready env ev = true -> moderation_command (comment_body ev) = true ->
  by_moderator ev = false ->
  run (main w env ev) h =
  (Exit 0, post w (only_moderator_comment (MODERATOR ev)) h).
Proof.
  intros (Ht & Hr & n & Hn)%ready_inv (Hb & Hc & Hm)%moderation_command_inv Hu.
  unfold by_moderator in Hu. unfold main.
  by rewrite Ht, Hr, Hn, Hb, Hc, Hm, Hu.
Qed.

(** The moderator's allow or deny reaches the approval check. *)
Lemma main_moderated (env : environ) (ev : event) (h : host) :
  ready env ev = true -> moderation_command (comment_body ev) = true ->
  by_moderator ev = true ->
  run (main w env ev) h = run (approval_gate w (strip (comment_body ev))) h.
Proof.
  intros (Ht & Hr & n & Hn)%ready_inv (Hb & Hc & Hm)%moderation_command_inv Hu.
  unfold by_moderator in Hu. unfold main.
  by rewrite Ht, Hr, Hn, Hb, Hc, Hm, Hu.
Qed.

Lemma approval_not_on_review (text : string) (h : host) :
  has_label ON_REVIEW (labels h) = false ->
  run (approval_gate w text) h = (Exit 0, post w not_on_review_comment h).
Proof. intros Hl. unfold approval_gate. script_simpl. by rewrite Hl. Qed.

Lemma approval_no_ledger (text : string) (h : host) :
  has_label ON_REVIEW (labels h) = true -> lookup h = JNull ->
  run (approval_gate w text) h = (Exit 0, post w no_stored_hashes_comment h).
Proof.
  unfold lookup, approval_gate. intros Hl. script_simpl. rewrite Hl. cbn [negb].
  destruct (find_manifest_hash_comment _ _) as [c stored]. cbn [snd].
  by intros ->.
Qed.

(** With a recorded mapping the approval check turns on the stale lines alone. *)
Lemma approval_ledger (text : string) (h : host) (d : gmap string json) :
  has_label ON_REVIEW (labels h) = true -> lookup h = JObj d ->
  run (approval_gate w text) h =
  match omap (mismatch_msg w d) (manifests_of w) with
  | [] => run (allow_or_deny w text) h
  | msgs => (Exit 0, demoted w msgs h)
  end.
Proof.
  unfold lookup, approval_gate, manifests_of. intros Hl. script_simpl.
  rewrite Hl. cbn [negb].
  destruct (find_manifest_hash_comment _ _) as [c stored]. cbn [snd].
  intros ->. rewrite compare_hashes_spec by done. cbn [fst snd app].
  by destruct (omap _ _).
Qed.

(** Without changed manifests nothing is compared, whatever was stored. *)
Lemma approval_vacuous (text : string) (h : host) :
  has_label ON_REVIEW (labels h) = true -> lookup h <> JNull ->
  manifests_of w = [] ->
  run (approval_gate w text) h = run (allow_or_deny w text) h.
Proof.
  unfold lookup, approval_gate, manifests_of. intros Hl Hs ->. script_simpl.
  rewrite Hl. cbn [negb].
  destruct (find_manifest_hash_comment _ _) as [c stored]. cbn [snd] in Hs.
  by destruct stored.
Qed.

Lemma allow_run (text : string) (h : host) :
  contains "@bot allow" text = true ->
  run (allow_or_deny w text) h =
  match merge_error w with
  | None => (Exit 0, merged w h)
  | Some e => (Exit 1, merge_failed w e h)
  end.
Proof.
  intros Ha. unfold allow_or_deny. rewrite Ha. script_simpl.
  by destruct (merge_error w).
Qed.

End dispatcher_facts.

(** * Properties of the review workflow *)

Section fixed_comments.
Import Dispatcher Workflow.

Lemma success_comment_no_marker :
  contains MARKER_START_DEFAULT Validator.success_comment = false.
Proof. by vm_compute. Qed.

Lemma only_moderator_no_marker (moderator : string) :
  is_login moderator = true ->
  contains MARKER_START_DEFAULT (only_moderator_comment moderator) = false.
Proof.
  intros Hm%is_login_no_lt. apply contains_no_first_char.
  unfold only_moderator_comment. by rewrite !occurs_app, Hm.
Qed.

Lemma allow_is_moderation (text : string) :
  allow_command text = true -> moderation_command text = true.
Proof. unfold moderation_command. by intros ->. Qed.

Lemma allow_command_inv (text : string) :
  allow_command text = true -> contains "@bot allow" (strip text) = true.
Proof. unfold allow_command. by intros [_ ?]%andb_true_iff. Qed.

End fixed_comments.

(** C1.  A validation run that finds no defect labels the thread [On review]
    and posts the success comment, and that is all it does: the comment
    holds no marker, so the ledger lookup gives afterwards what it gave
    before.  The run records no hash mapping. *)
Theorem validation_success_leaves_ledger `{PyRuntime} (w : world)
    (env : environ) (pr : option Z) (h : host) :
  Workflow.configured env = true ->
  Validator.no_pr pr = false ->
  Workflow.manifests_of w <> [] ->
  Validator.check_manifests w (Workflow.manifests_of w) = Some [] ->
  run (Validator.main w env pr) h = (Exit 0, Workflow.locked w h)
  /\ (ON_REVIEW ∈ labels (Workflow.locked w h))
  /\ Workflow.lookup (Workflow.locked w h) = Workflow.lookup h.
Proof.
  intros Hc Hpr Hm Hclean. split; [by apply validator_clean|]. split.
  - unfold Workflow.locked. cbn [labels]. set_solver.
  - unfold Workflow.lookup, Workflow.locked. cbn [comments].
    rewrite find_snoc_skip; [done|].
    apply carries_no_marker, success_comment_no_marker.
Qed.

Lemma validation_success_leaves_ledger_witness :
  let w := Sample.demo_world (Content Sample.demo_v1) (Some Sample.good_icon)
             [Sample.DEMO_PATH] in
  run (Validator.main (H := Sample.sample_runtime) w Sample.env (Some 7))
    Sample.fresh
  = (Exit 0, Workflow.locked w Sample.fresh)
  /\ (ON_REVIEW ∈ labels (Workflow.locked w Sample.fresh))
  /\ Workflow.lookup (H := Sample.sample_runtime) (Workflow.locked w Sample.fresh)
     = Workflow.lookup (H := Sample.sample_runtime) Sample.fresh.
Proof.
  intros w.
  apply (validation_success_leaves_ledger (H := Sample.sample_runtime) w
           Sample.env (Some 7) Sample.fresh).
  - reflexivity.
  - reflexivity.
  - vm_compute. discriminate.
  - vm_compute. reflexivity.
Defined.

(** After such a run on a fresh thread the moderator's allow is refused for
    want of stored hashes. *)
Example allow_after_validation_is_refused :
  let w := Sample.demo_world (Content Sample.demo_v1) (Some Sample.good_icon)
             [Sample.DEMO_PATH] in
  Workflow.lookup (H := Sample.sample_runtime) (Workflow.locked w Sample.fresh) = JNull
  /\ run (Dispatcher.main (H := Sample.sample_runtime) w Sample.env
            (Sample.command "Artyomka628" "@bot allow"))
       (Workflow.locked w Sample.fresh)
     = (Exit 0,
        Workflow.post w Dispatcher.no_stored_hashes_comment
          (Workflow.locked w Sample.fresh)).
Proof.
  intros w. split; [by vm_compute|].
  rewrite main_moderated by reflexivity.
  apply approval_no_ledger; by vm_compute.
Qed.

(** C2.  An allow command of the moderator on a thread under review with a
    recorded mapping, where some changed manifest is missing from the
    checkout or hashes to something else than recorded: the run ends
    without a merge, reports one line for every stale path, and moves the
    thread from [On review] to [Invalid manifest]. *)
Theorem stale_ledger_blocks_allow `{PyRuntime} (w : world) (env : environ)
    (ev : Dispatcher.event) (h : host) (d : gmap string json) (p : string) :
  Workflow.ready env ev = true ->
  Workflow.allow_command (Dispatcher.comment_body ev) = true ->
  Workflow.by_moderator ev = true ->
  has_label ON_REVIEW (labels h) = true ->
  Workflow.lookup h = JObj d ->
  p ∈ Workflow.manifests_of w ->
  (Dispatcher.hash_file w p = None
   \/ exists digest, Dispatcher.hash_file w p = Some digest
        /\ eq_str (default JNull (d !! p)) digest = false) ->
  let msgs := omap (Workflow.mismatch_msg w d) (Workflow.manifests_of w) in
  let h' := Workflow.demoted w msgs h in
  run (Dispatcher.main w env ev) h = (Exit 0, h')
  /\ (exists line, Workflow.mismatch_msg w d p = Some line)
  /\ (forall q line,
        q ∈ Workflow.manifests_of w -> Workflow.mismatch_msg w d q = Some line ->
        contains line (Dispatcher.changed_comment msgs) = true)
  /\ last (comments h')
     = Some (Comment (bot_login w) (Some (Dispatcher.changed_comment msgs)))
  /\ (ON_REVIEW ∉ labels h')
  /\ (INVALID_MANIFEST ∈ labels h')
  /\ calls h' = calls h.
Proof.
  intros Hready Hallow Hmod Hrev Hled Hp Hstale msgs h'.
  assert (exists line, Workflow.mismatch_msg w d p = Some line) as [line Hline].
  { unfold Workflow.mismatch_msg. destruct Hstale as [->|(digest & -> & ->)];
      [eauto|]. destruct (String.eqb digest EmptyString); eauto. }
  assert (line ∈ msgs) as Hin by (apply list_elem_of_omap; eauto).
  split; [|split; [eauto|split; [|split; [|split; [|split]]]]].
  - rewrite main_moderated by auto using allow_is_moderation.
    rewrite (approval_ledger w _ h d Hrev Hled). fold msgs.
    destruct msgs; [by apply elem_of_nil in Hin|done].
  - intros q l Hq Hl. unfold Dispatcher.changed_comment.
    do 3 apply contains_app_r. apply contains_app_l, contains_join.
    apply list_elem_of_omap. eauto.
  - unfold h', Workflow.demoted. cbn [comments]. apply last_snoc.
  - unfold h', Workflow.demoted, ON_REVIEW, INVALID_MANIFEST. cbn [labels].
    set_solver.
  - unfold h', Workflow.demoted. cbn [labels]. set_solver.
  - done.
Qed.

Lemma stale_ledger_blocks_allow_witness :
  let w := Sample.demo_world (Content Sample.demo_v2) (Some Sample.good_icon)
             [Sample.DEMO_PATH] in
  let h := Sample.under_review
             [Sample.marker_comment "alice" Sample.ledger_text] in
  let line := Sample.DEMO_PATH +:+ Dispatcher.CHANGED_AFTER_VALIDATION in
  run (Dispatcher.main (H := Sample.sample_runtime) w Sample.env
         (Sample.command "Artyomka628" "@bot allow")) h
  = (Exit 0, Workflow.demoted w [line] h)
  /\ contains line (Dispatcher.changed_comment [line]) = true
  /\ calls (Workflow.demoted w [line] h) = [].
Proof.
  intros w h line.
  pose proof (stale_ledger_blocks_allow (H := Sample.sample_runtime) w
                Sample.env (Sample.command "Artyomka628" "@bot allow") h
                {[ Sample.DEMO_PATH := JStr Sample.DEMO_V1_SHA256 ]}
                Sample.DEMO_PATH) as Hthm.
  destruct Hthm as (Hrun & _ & Hline & _ & _ & _ & Hcalls).
  - reflexivity.
  - reflexivity.
  - reflexivity.
  - vm_compute. reflexivity.
  - vm_compute. reflexivity.
  - vm_compute. apply list_elem_of_here.
  - right. exists Sample.DEMO_V2_SHA256. vm_compute. split; reflexivity.
  - split; [exact Hrun|]. split; [|exact Hcalls].
    apply (Hline Sample.DEMO_PATH line); [apply list_elem_of_here|].
    vm_compute. reflexivity.
Defined.

(** C3.  For an allow or deny command of the moderator the checks come in
    order and the first that fails ends the run: a thread that is not
    [On review] is refused with the not-under-review message whatever its
    comments hold; a thread that is [On review] but has no stored mapping is
    refused with the must-validate-first message.  Either way only a comment
    is added: labels and the merge and close calls stay as they were. *)
Theorem approval_checks_in_order `{PyRuntime} (w : world) (env : environ)
    (ev : Dispatcher.event) (h : host) :
  Workflow.ready env ev = true ->
  Workflow.moderation_command (Dispatcher.comment_body ev) = true ->
  Workflow.by_moderator ev = true ->
  (has_label ON_REVIEW (labels h) = false ->
   run (Dispatcher.main w env ev) h
   = (Exit 0, Workflow.post w Dispatcher.not_on_review_comment h))
  /\ (has_label ON_REVIEW (labels h) = true -> Workflow.lookup h = JNull ->
      run (Dispatcher.main w env ev) h
      = (Exit 0, Workflow.post w Dispatcher.no_stored_hashes_comment h))
  /\ (forall text,
        labels (Workflow.post w text h) = labels h
        /\ calls (Workflow.post w text h) = calls h)
  /\ contains "must be validated with `@bot check` first"
       Dispatcher.no_stored_hashes_comment = true.
Proof.
  intros Hready Hcmd Hmod. split; [|split; [|split]].
  - intros Hrev. rewrite main_moderated by done. by apply approval_not_on_review.
  - intros Hrev Hled. rewrite main_moderated by done.
    by apply approval_no_ledger.
  - done.
  - by vm_compute.
Qed.

Lemma approval_checks_in_order_witness :
  let w := Sample.demo_world (Content Sample.demo_v1) (Some Sample.good_icon)
             [Sample.DEMO_PATH] in
  let allow := Sample.command "Artyomka628" "@bot allow" in
  let deny := Sample.command "Artyomka628" "@bot deny" in
  let unlabelled := MkHost ∅ [Sample.marker_comment "alice" Sample.ledger_text] [] in
  let unvalidated := Sample.under_review [] in
  run (Dispatcher.main (H := Sample.sample_runtime) w Sample.env allow)
    unlabelled
  = (Exit 0, Workflow.post w Dispatcher.not_on_review_comment unlabelled)
  /\ run (Dispatcher.main (H := Sample.sample_runtime) w Sample.env deny)
       unvalidated
     = (Exit 0, Workflow.post w Dispatcher.no_stored_hashes_comment unvalidated).
Proof.
  intros w allow deny unlabelled unvalidated. split.
  - apply (approval_checks_in_order (H := Sample.sample_runtime) w Sample.env
             allow unlabelled); reflexivity.
  - apply (approval_checks_in_order (H := Sample.sample_runtime) w Sample.env
             deny unvalidated); reflexivity.
Defined.

(** C5.  An allow or deny command whose author is not the moderator is
    answered with the only-the-moderator message and the run ends: labels and
    the merge and close calls are as before, and, the moderator's name being
    an account name, so is the ledger lookup. *)
Theorem unauthorized_command_rejected `{PyRuntime} (w : world)
    (env : environ) (ev : Dispatcher.event) (h : host) :
  Workflow.ready env ev = true ->
  Workflow.moderation_command (Dispatcher.comment_body ev) = true ->
  Workflow.by_moderator ev = false ->
  let h' :=
    Workflow.post w (Dispatcher.only_moderator_comment (Dispatcher.MODERATOR ev))
      h in
  run (Dispatcher.main w env ev) h = (Exit 0, h')
  /\ labels h' = labels h
  /\ calls h' = calls h
  /\ (Workflow.is_login (Dispatcher.MODERATOR ev) = true ->
      Workflow.lookup h' = Workflow.lookup h).
Proof.
  intros Hready Hcmd Hmod h'. split; [by apply main_unauthorized|].
  split; [done|]. split; [done|].
  intros Hlogin. by apply lookup_post, only_moderator_no_marker.
Qed.

Lemma unauthorized_command_rejected_witness :
  let w := Sample.demo_world (Content Sample.demo_v1) (Some Sample.good_icon)
             [Sample.DEMO_PATH] in
  let h := Sample.under_review
             [Sample.marker_comment "alice" Sample.ledger_text] in
  let ev := Sample.command "mallory" "@bot allow" in
  let h' :=
    Workflow.post w (Dispatcher.only_moderator_comment "Artyomka628") h in
  run (Dispatcher.main (H := Sample.sample_runtime) w Sample.env ev) h
  = (Exit 0, h')
  /\ labels h' = labels h
  /\ calls h' = calls h
  /\ Workflow.lookup (H := Sample.sample_runtime) h'
     = Workflow.lookup (H := Sample.sample_runtime) h.
Proof.
  intros w h ev h'.
  destruct (unauthorized_command_rejected (H := Sample.sample_runtime) w
              Sample.env ev h) as (Hrun & Hlabels & Hcalls & Hlookup).
  - reflexivity.
  - reflexivity.
  - reflexivity.
  - split; [exact Hrun|]. split; [exact Hlabels|]. split; [exact Hcalls|].
    apply Hlookup. reflexivity.
Defined.

(** C9.  The ledger lookup goes through the comments from the newest to the
    oldest and stops at the first whose body has the start marker and whose
    delimited text parses; comments that carry nothing, be it for want of a
    marker or for a text that does not parse, are passed over.  Who wrote
    the comment plays no part.  The approval check then compares the checkout with
    exactly that mapping. *)
Theorem lookup_newest_parseable `{PyRuntime} (w : world) (env : environ)
    (ev : Dispatcher.event) (h : host) (older newer : list comment)
    (c : comment) (data : json) :
  comments h = older ++ c :: newer ->
  Workflow.carries c = Some data ->
  Forall (fun c' => Workflow.carries c' = None) newer ->
  Dispatcher.find_manifest_hash_comment (comments h)
    Dispatcher.MARKER_START_DEFAULT = (Some c, data)
  /\ (forall author,
        let c' := Comment author (body c) in
        Dispatcher.find_manifest_hash_comment (older ++ c' :: newer)
          Dispatcher.MARKER_START_DEFAULT = (Some c', data))
  /\ (forall cs,
        map body cs = map body (comments h) ->
        (Dispatcher.find_manifest_hash_comment cs
           Dispatcher.MARKER_START_DEFAULT).2 = data)
  /\ (forall d,
        data = JObj d ->
        Workflow.ready env ev = true ->
        Workflow.moderation_command (Dispatcher.comment_body ev) = true ->
        Workflow.by_moderator ev = true ->
        has_label ON_REVIEW (labels h) = true ->
        run (Dispatcher.main w env ev) h =
        match omap (Workflow.mismatch_msg w d) (Workflow.manifests_of w) with
        | [] =>
            run (Dispatcher.allow_or_deny w
                   (strip (Dispatcher.comment_body ev))) h
        | msgs => (Exit 0, Workflow.demoted w msgs h)
        end).
Proof.
  intros Hcs Hc Hnewer.
  assert (Dispatcher.find_manifest_hash_comment (comments h)
            Dispatcher.MARKER_START_DEFAULT = (Some c, data)) as Hfind
    by (rewrite Hcs; by apply find_newest).
  split; [done|]. split; [|split].
  - intros author c'. by apply find_newest.
  - intros cs Hb. by rewrite (find_bodies cs (comments h) Hb), Hfind.
  - intros d -> Hready Hcmd Hmod Hrev. rewrite main_moderated by done.
    apply approval_ledger; [done|]. unfold Workflow.lookup. by rewrite Hfind.
Qed.

Lemma lookup_newest_parseable_witness :
  let w := Sample.demo_world (Content Sample.demo_v1) (Some Sample.good_icon)
             [Sample.DEMO_PATH] in
  let recorded := Sample.marker_comment "alice" Sample.ledger_text in
  let malformed := Sample.marker_comment "github-actions[bot]" "oops" in
  let chatter := Comment "bob" (Some "looks good to me") in
  let h := Sample.under_review [chatter; recorded; malformed; chatter] in
  Dispatcher.find_manifest_hash_comment (H := Sample.sample_runtime)
    (comments h) Dispatcher.MARKER_START_DEFAULT
  = (Some recorded,
     JObj {[ Sample.DEMO_PATH := JStr Sample.DEMO_V1_SHA256 ]}).
Proof.
  intros w recorded malformed chatter h.
  apply (lookup_newest_parseable (H := Sample.sample_runtime) w Sample.env
           (Sample.command "Artyomka628" "@bot allow") h [chatter]
           [malformed; chatter] recorded).
  - reflexivity.
  - vm_compute. reflexivity.
  - repeat constructor.
Defined.

(** A thread none of whose comments carries a mapping has no entry. *)
Lemma lookup_nothing_carried `{PyRuntime} (cs : list comment) :
  Forall (fun c => Workflow.carries c = None) cs ->
  Dispatcher.find_manifest_hash_comment cs Dispatcher.MARKER_START_DEFAULT
  = (None, JNull).
Proof. apply find_none. Qed.

(** C10.  When no changed file is a manifest, the comparison loop has
    nothing to go through: the moderator's allow on a thread under review
    with any stored value goes on to the merge call without a digest having
    been computed or compared. *)
Theorem no_manifest_allow_merges `{PyRuntime} (w : world) (env : environ)
    (ev : Dispatcher.event) (h : host) :
  Workflow.ready env ev = true ->
  Workflow.allow_command (Dispatcher.comment_body ev) = true ->
  Workflow.by_moderator ev = true ->
  has_label ON_REVIEW (labels h) = true ->
  Workflow.lookup h <> JNull ->
  Workflow.manifests_of w = [] ->
  run (Dispatcher.main w env ev) h
  = match merge_error w with
    | None => (Exit 0, Workflow.merged w h)
    | Some e => (Exit 1, Workflow.merge_failed w e h)
    end
  /\ calls (Workflow.merged w h) = calls h ++ [Merge]
  /\ (forall e, calls (Workflow.merge_failed w e h) = calls h ++ [Merge])
  /\ Dispatcher.compute_local_hashes w (Workflow.manifests_of w) = ∅
  /\ Dispatcher.compare_hashes (Workflow.lookup h)
       (Dispatcher.compute_local_hashes w (Workflow.manifests_of w)) (false, [])
       (Workflow.manifests_of w) = Some (false, []).
Proof.
  intros Hready Hallow Hmod Hrev Hled Hnone. split; [|by rewrite Hnone].
  rewrite main_moderated by auto using allow_is_moderation.
  rewrite approval_vacuous by done. by apply allow_run, allow_command_inv.
Qed.

Lemma no_manifest_allow_merges_witness :
  let w := Sample.demo_world NoFile None ["README.md"; "icons/demo.png"] in
  let h := Sample.under_review [Sample.marker_comment "mallory" "{}"] in
  run (Dispatcher.main (H := Sample.sample_runtime) w Sample.env
         (Sample.command "Artyomka628" "@bot allow")) h
  = (Exit 0, Workflow.merged w h)
  /\ calls (Workflow.merged w h) = [Merge].
Proof.
  intros w h.
  destruct (no_manifest_allow_merges (H := Sample.sample_runtime) w
              Sample.env (Sample.command "Artyomka628" "@bot allow") h)
    as (Hrun & Hcalls & _).
  - reflexivity.
  - reflexivity.
  - reflexivity.
  - vm_compute. reflexivity.
  - vm_compute. discriminate.
  - vm_compute. reflexivity.
  - split; [exact Hrun|exact Hcalls].
Defined.

Section accumulation.
Context `{PyRuntime} (w : world).
Import Validator.

(** One manifest that raises takes the whole loop with it. *)
Lemma check_manifests_crash (ps : list string) (p : string) :
  p ∈ ps -> check_manifest w p = None -> check_manifests w ps = None.
Proof.
  intros Hp Hnone. induction ps as [|q qs IH]; [by apply elem_of_nil in Hp|].
  cbn [check_manifests].
  apply elem_of_cons in Hp as [<-|Hp]; [by rewrite Hnone|].
  rewrite (IH Hp). by destruct (check_manifest w q).
Qed.

(** A loop that comes to its end has the defects of each manifest. *)
Lemma check_manifests_incl (ps : list string) (errors ds : list defect)
    (p : string) (d : defect) :
  check_manifests w ps = Some errors ->
  p ∈ ps -> check_manifest w p = Some ds -> d ∈ ds -> d ∈ errors.
Proof.
  revert errors. induction ps as [|q qs IH]; intros errors Hall Hp Hds Hd;
    [by apply elem_of_nil in Hp|].
  cbn [check_manifests] in Hall.
  destruct (check_manifest w q) as [errs|] eqn:Hq; [|done].
  destruct (check_manifests w qs) as [more|] eqn:Hqs; [|done].
  injection Hall as <-. apply elem_of_app.
  apply elem_of_cons in Hp as [->|Hp].
  - left. congruence.
  - right. by apply (IH more).
Qed.

End accumulation.

(** C7, where the code departs from it.  A manifest whose bytes do not parse
    contributes exactly one defect, the parse defect, whatever its icon or
    download would have shown.  When the loop comes to its end, the one
    report of the run lists that defect with the defects of all the other
    manifests.  But the loop does not come to its end when another changed
    manifest parses to something that is not an object: the membership test
    on it raises outside every handler, the run ends in a traceback, and
    neither the parse defect nor any other is reported, no comment is
    posted and no label is touched. *)
Theorem parse_failure_lost_to_sibling `{PyRuntime} (w : world) (env : environ)
    (pr : option Z) (h : host) (p bytes e : string) :
  Workflow.configured env = true ->
  Validator.no_pr pr = false ->
  p ∈ Workflow.manifests_of w ->
  fs w p = Content bytes ->
  json_loads bytes = Raise e ->
  Validator.check_manifest w p = Some [Validator.InvalidJSON p e]
  /\ (forall errors,
        Validator.check_manifests w (Workflow.manifests_of w) = Some errors ->
        Validator.InvalidJSON p e ∈ errors
        /\ run (Validator.main w env pr) h
           = (Exit 1, Workflow.invalidated w errors h)
        /\ forall d,
             d ∈ errors ->
             contains (Validator.render d) (Validator.failure_comment errors)
             = true)
  /\ (forall q qbytes v,
        q ∈ Workflow.manifests_of w ->
        fs w q = Content qbytes ->
        json_loads qbytes = Return v ->
        (forall d, v <> JObj d) ->
        Validator.check_manifests w (Workflow.manifests_of w) = None
        /\ run (Validator.main w env pr) h = (Traceback, h)).
Proof.
  intros Hc Hpr Hp Hfs Hload.
  assert (Validator.check_manifest w p = Some [Validator.InvalidJSON p e])
    as Hone by (unfold Validator.check_manifest; by rewrite Hfs, Hload).
  split; [done|]. split.
  - intros errors Hall.
    assert (Validator.InvalidJSON p e ∈ errors) as Hin.
    { apply (check_manifests_incl w _ _ _ p _ Hall Hp Hone).
      apply list_elem_of_here. }
    split; [done|]. split.
    + destruct errors as [|x errors']; [by apply elem_of_nil in Hin|].
      by apply validator_defects.
    + intros d Hd. unfold Validator.failure_comment.
      do 3 apply contains_app_r. apply contains_app_l, contains_join.
      apply list_elem_of_fmap. eauto.
  - intros q qbytes v Hq Hqfs Hqload Hv.
    assert (Validator.check_manifests w (Workflow.manifests_of w) = None)
      as Hnone.
    { apply (check_manifests_crash w _ q Hq).
      by apply (check_manifest_not_object w q qbytes v). }
    split; [done|]. by apply validator_crash.
Qed.

Lemma parse_failure_lost_to_sibling_witness :
  let w := Sample.demo_world (Content "null") (Some Sample.good_icon)
             ["manifests/bad.json"; Sample.DEMO_PATH] in
  Validator.check_manifest (H := Sample.sample_runtime) w "manifests/bad.json"
  = Some [Validator.InvalidJSON "manifests/bad.json" Sample.EXPECTING_VALUE]
  /\ run (Validator.main (H := Sample.sample_runtime) w Sample.env (Some 7))
       Sample.fresh
     = (Traceback, Sample.fresh).
Proof.
  intros w.
  destruct (parse_failure_lost_to_sibling (H := Sample.sample_runtime) w
              Sample.env (Some 7) Sample.fresh "manifests/bad.json" "not json"
              Sample.EXPECTING_VALUE)
    as (Hone & _ & Hlost).
  - reflexivity.
  - reflexivity.
  - vm_compute. apply list_elem_of_here.
  - reflexivity.
  - reflexivity.
  - split; [exact Hone|].
    apply (Hlost Sample.DEMO_PATH "null" JNull).
    + vm_compute. apply list_elem_of_further, list_elem_of_here.
    + reflexivity.
    + reflexivity.
    + discriminate.
Defined.

Section icon_lines.
Import Validator.

Lemma fields_no_icon_defect (p : string) (fields : list string) (x : defect) :
  x ∈ map (MissingField p) fields ->
  match x with
  | IconMissing _ _ | IconTooLarge _ | IconNotPNG _ | IconBadDimensions _
  | IconUnreadable _ _ => False
  | _ => True
  end.
Proof. intros (f & -> & _)%list_elem_of_fmap. done. Qed.

Lemma url_no_icon_defect `{PyRuntime} (w : world) (p : string)
    (url declared : json) (x : defect) :
  x ∈ check_url w p url declared ->
  match x with
  | IconMissing _ _ | IconTooLarge _ | IconNotPNG _ | IconBadDimensions _
  | IconUnreadable _ _ => False
  | _ => True
  end.
Proof.
  unfold check_url. destruct (truthy url); [|by intros ?%elem_of_nil].
  destruct (http_get w url) as [r|e].
  - destruct (negb (status_code r =? 200)).
    + by intros ->%list_elem_of_singleton.
    + destruct (eq_str _ _); [by intros ?%elem_of_nil|].
      by intros ->%list_elem_of_singleton.
  - by intros ->%list_elem_of_singleton.
Qed.

Lemma elem_of_when {A} (b : bool) (x y : A) :
  y ∈ (if b then [x] else []) <-> b = true /\ y = x.
Proof.
  destruct b; [rewrite list_elem_of_singleton|rewrite elem_of_nil];
    naive_solver.
Qed.

Lemma elem_of_unless {A} (b : bool) (x y : A) :
  y ∈ (if b then [] else [x]) <-> b = false /\ y = x.
Proof.
  destruct b; [rewrite elem_of_nil|rewrite list_elem_of_singleton];
    naive_solver.
Qed.

(** The defects of an icon file that is there and opens as an image. *)
Lemma check_icon_image `{PyRuntime} (w : world) (p : string) (package : json)
    (icon : icon_file) (img : image) (x : defect) :
  icon_at w (icon_path_of package) = Some icon ->
  image_open icon = Return img ->
  x ∈ check_icon w p package <->
  ((ICON_MAX_SIZE <? getsize icon) = true
   /\ x = IconTooLarge (icon_path_of package))
  \/ (String.eqb (format img) "PNG" = false
      /\ x = IconNotPNG (icon_path_of package))
  \/ ((width img =? ICON_WIDTH) && (height img =? ICON_HEIGHT) = false
      /\ x = IconBadDimensions (icon_path_of package)).
Proof.
  intros Hicon Himg. unfold check_icon, check_image. rewrite Hicon, Himg.
  by rewrite !elem_of_app, elem_of_when, !elem_of_unless.
Qed.

(** The size rule does not wait for the image to open. *)
Lemma check_icon_size `{PyRuntime} (w : world) (p : string) (package : json)
    (icon : icon_file) :
  icon_at w (icon_path_of package) = Some icon ->
  IconTooLarge (icon_path_of package) ∈ check_icon w p package <->
  ICON_MAX_SIZE < getsize icon.
Proof.
  intros Hicon. unfold check_icon, check_image. rewrite Hicon.
  rewrite elem_of_app, elem_of_when, Z.ltb_lt.
  split; [|by left]. intros [[? _]|Himg]; [done|exfalso].
  destruct (image_open icon) as [img|e].
  - rewrite elem_of_app, !elem_of_unless in Himg. naive_solver.
  - by apply list_elem_of_singleton in Himg.
Qed.

(** The one defect of an icon file that is not there. *)
Lemma check_icon_missing `{PyRuntime} (w : world) (p : string) (package : json)
    (x : defect) :
  icon_at w (icon_path_of package) = None ->
  x ∈ check_icon w p package <-> x = IconMissing p (icon_path_of package).
Proof.
  intros Hicon. unfold check_icon. rewrite Hicon.
  apply list_elem_of_singleton.
Qed.

(** The defects of an icon file that is there and does not open. *)
Lemma check_icon_unreadable `{PyRuntime} (w : world) (p : string)
    (package : json) (icon : icon_file) (e : string) (x : defect) :
  icon_at w (icon_path_of package) = Some icon ->
  image_open icon = Raise e ->
  x ∈ check_icon w p package <->
  ((ICON_MAX_SIZE <? getsize icon) = true
   /\ x = IconTooLarge (icon_path_of package))
  \/ x = IconUnreadable (icon_path_of package) e.
Proof.
  intros Hicon Himg. unfold check_icon. rewrite Hicon, Himg.
  by rewrite elem_of_app, elem_of_when, list_elem_of_singleton.
Qed.

End icon_lines.

(** [declared_hash == actual_hash] holds for the equal string alone. *)
Lemma eq_str_true (v : json) (s : string) :
  eq_str v s = true <-> v = JStr s.
Proof.
  destruct v; cbn; try (split; [done|discriminate]).
  rewrite String.eqb_eq. split; [by intros ->|congruence].
Qed.

Section acceptance.
Context `{PyRuntime} (w : world).
Import Validator Workflow.

Lemma no_field_absent (d : gmap string json) (fields : list string) :
  List.filter (absent d) fields = [] <->
  forall f, f ∈ fields -> is_Some (d !! f).
Proof.
  induction fields as [|f fields IH]; [by split; [intros _ ? ?%elem_of_nil|]|].
  cbn [List.filter]. unfold absent at 1.
  destruct (bool_decide_reflect (is_Some (d !! f))) as [Hf|Hf]; cbn [negb].
  - rewrite IH. split.
    + intros Hall g [->|Hg]%elem_of_cons; auto.
    + intros Hall g Hg. apply Hall. by right.
  - split; [done|]. intros Hall. destruct Hf. apply Hall. by left.
Qed.

Lemma check_icon_nil (p : string) (package : json) :
  check_icon w p package = [] <->
  exists icon, icon_at w (icon_path_of package) = Some icon /\ conforming icon.
Proof.
  unfold check_icon, check_image, conforming, ICON_MAX_SIZE, ICON_WIDTH,
    ICON_HEIGHT.
  destruct (icon_at w (icon_path_of package)) as [icon|].
  2:{ split; [done|]. intros (? & Hi & _). discriminate Hi. }
  destruct (Z.ltb_spec 3072 (getsize icon)) as [Hsize|Hsize].
  { split; [done|]. intros (? & [= <-] & ? & _). lia. }
  destruct (image_open icon) as [img|e] eqn:Hopen.
  2:{ split; [done|]. intros (? & [= <-] & _ & ? & Hi & _). congruence. }
  destruct (String.eqb_spec (format img) "PNG") as [Hpng|Hpng].
  2:{ split; [done|]. intros (? & [= <-] & _ & ? & Hi & ? & _). congruence. }
  destruct (Z.eqb_spec (width img) 32) as [Hw|Hw].
  2:{ split; [done|]. intros (? & [= <-] & _ & ? & Hi & _ & ? & _).
      congruence. }
  destruct (Z.eqb_spec (height img) 32) as [Hh|Hh].
  2:{ split; [done|]. intros (? & [= <-] & _ & ? & Hi & _ & _ & ?).
      congruence. }
  split; [|done]. intros _. exists icon. split; [done|]. split; [done|].
  by exists img.
Qed.

Lemma check_url_nil (p : string) (url declared_hash : json) :
  check_url w p url declared_hash = [] <-> verified w url declared_hash.
Proof.
  unfold check_url, verified, sha256_bytes.
  destruct (truthy url); [|split; [by left|done]].
  destruct (http_get w url) as [r|e].
  2:{ split; [done|]. intros [?|(? & Hr & _)]; [done|discriminate Hr]. }
  destruct (Z.eqb_spec (status_code r) 200) as [Hs|Hs]; cbn [negb].
  2:{ split; [done|]. intros [?|(? & [= <-] & ? & _)]; done. }
  destruct (eq_str declared_hash _) eqn:Heq.
  - apply eq_str_true in Heq. split; [|done]. intros _. right. by exists r.
  - split; [done|]. intros [?|(? & [= <-] & _ & Hd)]; [done|].
    apply (eq_str_true declared_hash) in Hd. congruence.
Qed.

Lemma icon_no_field_defect (p : string) (package : json) (f : string) :
  MissingField p f ∉ check_icon w p package.
Proof.
  unfold check_icon, check_image.
  destruct (icon_at w (icon_path_of package)) as [icon|];
    [|by intros ?%list_elem_of_singleton].
  rewrite elem_of_app, elem_of_when. intros [[_ ?]|Hin]; [done|].
  destruct (image_open icon) as [img|e];
    [|by apply list_elem_of_singleton in Hin].
  apply elem_of_app in Hin as [Hin|Hin];
    by apply elem_of_unless in Hin as [_ ?].
Qed.

Lemma url_no_field_defect (p : string) (url declared_hash : json)
    (f : string) :
  MissingField p f ∉ check_url w p url declared_hash.
Proof.
  unfold check_url. destruct (truthy url); [|by intros ?%elem_of_nil].
  destruct (http_get w url) as [r|e]; [|by intros ?%list_elem_of_singleton].
  destruct (negb _); [by intros ?%list_elem_of_singleton|].
  destruct (eq_str _ _);
    [by intros ?%elem_of_nil|by intros ?%list_elem_of_singleton].
Qed.

End acceptance.

(** C6, amended.  For a manifest that parses to a JSON object the field
    loop reports exactly one missing-field defect for each required field
    that is not a key of the object, in the order of the required fields,
    and goes on to the icon and download checks whatever it found; those
    checks add no missing-field defect.  A required field set to null is a
    key, so it raises no missing-field defect.  The manifest is without
    defect exactly when every required field is a key, the icon named
    after the value of [package] conforms, and the download is empty or
    verified against the value of [sha256]: the values of [package], [url]
    and [sha256] are read there, so that a null [sha256] next to a
    non-empty [url] always is a defect and a null [package] sends the icon
    check to [icons/None.png], while the value of any other required field
    has no say. *)
Theorem missing_fields_reported `{PyRuntime} (w : world)
    (p bytes : string) (d : gmap string json) :
  fs w p = Content bytes ->
  json_loads bytes = Return (JObj d) ->
  let missing := List.filter (Workflow.absent d) Validator.REQUIRED_FIELDS in
  let package := default JNull (d !! "package") in
  let url := default JNull (d !! "url") in
  let declared_hash := default JNull (d !! "sha256") in
  let errs :=
    map (Validator.MissingField p) missing
    ++ Validator.check_icon w p package
    ++ Validator.check_url w p url declared_hash in
  Validator.check_fields p (JObj d) Validator.REQUIRED_FIELDS
  = Some (map (Validator.MissingField p) missing)
  /\ Validator.check_manifest w p = Some errs
  /\ NoDup missing
  /\ (forall f, f ∈ missing <-> f ∈ Validator.REQUIRED_FIELDS /\ d !! f = None)
  /\ (forall f,
        Validator.MissingField p f ∈ errs
        <-> f ∈ Validator.REQUIRED_FIELDS /\ d !! f = None)
  /\ (forall f, d !! f = Some JNull -> Validator.MissingField p f ∉ errs)
  /\ (missing = [] <->
      forall f, f ∈ Validator.REQUIRED_FIELDS -> is_Some (d !! f))
  /\ (errs = [] <->
      (forall f, f ∈ Validator.REQUIRED_FIELDS -> is_Some (d !! f))
      /\ (exists icon,
            icon_at w (Validator.icon_path_of package) = Some icon
            /\ conforming icon)
      /\ verified w url declared_hash)
  /\ (d !! "sha256" = Some JNull -> truthy url = true -> errs <> [])
  /\ (d !! "package" = Some JNull ->
      Validator.icon_path_of package = "icons/None.png")
  /\ (forall d',
        (forall f, f ∈ Validator.REQUIRED_FIELDS ->
                   is_Some (d' !! f) <-> is_Some (d !! f)) ->
        d' !! "package" = d !! "package" ->
        d' !! "url" = d !! "url" ->
        d' !! "sha256" = d !! "sha256" ->
        map (Validator.MissingField p)
          (List.filter (Workflow.absent d') Validator.REQUIRED_FIELDS)
        ++ Validator.check_icon w p (default JNull (d' !! "package"))
        ++ Validator.check_url w p (default JNull (d' !! "url"))
             (default JNull (d' !! "sha256"))
        = errs).
Proof.
  intros Hfs Hload missing package url declared_hash errs.
  assert (forall f,
            f ∈ missing <-> f ∈ Validator.REQUIRED_FIELDS /\ d !! f = None)
    as Hmissing.
  { intros f. unfold missing. rewrite !list_elem_of_In, filter_In.
    unfold Workflow.absent. rewrite negb_true_iff, bool_decide_eq_false.
    by rewrite <- eq_None_not_Some. }
  assert (forall f,
            Validator.MissingField p f ∈ errs
            <-> f ∈ Validator.REQUIRED_FIELDS /\ d !! f = None)
    as Hfield.
  { intros f. rewrite <- Hmissing. unfold errs. rewrite !elem_of_app.
    split.
    - intros [Hin|[Hin|Hin]].
      + by apply list_elem_of_fmap in Hin as (g & [= ->] & Hg).
      + by apply icon_no_field_defect in Hin.
      + by apply url_no_field_defect in Hin.
    - intros Hin. left. apply list_elem_of_fmap. eauto. }
  split; [apply check_fields_obj|].
  split; [by apply (check_manifest_obj w p bytes)|].
  split; [|split; [done|split; [done|split; [|split; [|split; [|split;
    [|split]]]]]]].
  - apply NoDup_ListNoDup, List.NoDup_filter, NoDup_ListNoDup.
    apply required_fields_nodup.
  - intros f Hnull [_ Hnone]%Hfield. congruence.
  - apply no_field_absent.
  - rewrite <- no_field_absent, <- (check_icon_nil w p),
      <- (check_url_nil w p). fold missing. unfold errs. split.
    + intros Hnil. apply app_eq_nil in Hnil as [Hf Hrest].
      apply app_eq_nil in Hrest as [Hi Hu].
      split; [|done]. eapply map_eq_nil. exact Hf.
    + by intros (-> & -> & ->).
  - intros Hnull Hurl Hnil. apply app_eq_nil in Hnil as [_ Hrest].
    apply app_eq_nil in Hrest as [_ Hu].
    apply check_url_nil in Hu as [Hu|(r & _ & _ & Hhash)]; [congruence|].
    unfold declared_hash in Hhash. by rewrite Hnull in Hhash.
  - intros Hnull. unfold package. by rewrite Hnull.
  - intros d' Hkeys -> -> ->. unfold errs, missing. do 2 f_equal.
    apply filter_ext_in. intros f Hf. unfold Workflow.absent. f_equal.
    apply bool_decide_ext, Hkeys. by apply list_elem_of_In.
Qed.

Lemma missing_fields_reported_witness :
  let w := Sample.demo_world (Content "{}") (Some Sample.good_icon)
             [Sample.DEMO_PATH] in
  Validator.check_manifest (H := Sample.sample_runtime) w Sample.DEMO_PATH
  = Some (map (Validator.MissingField Sample.DEMO_PATH)
            Validator.REQUIRED_FIELDS
          ++ [Validator.IconMissing Sample.DEMO_PATH "icons/None.png"]).
Proof.
  intros w.
  destruct (missing_fields_reported (H := Sample.sample_runtime) w
              Sample.DEMO_PATH "{}" ∅) as (_ & Hall & _).
  - reflexivity.
  - reflexivity.
  - exact Hall.
Defined.

(** C6 as stated fails on a manifest whose [name] is null: the
    field is a key, so the run finds no defect at all and the thread goes
    under review. *)
Lemma null_field_counterexample :
  let w := Sample.demo_world (Content Sample.demo_null_name)
             (Some Sample.good_icon) [Sample.DEMO_PATH] in
  let d := Sample.manifest_dict JNull "1.0" in
  json_loads (PyRuntime := Sample.sample_runtime) Sample.demo_null_name
  = Return (JObj d)
  /\ d !! "name" = Some JNull
  /\ In "name" Validator.REQUIRED_FIELDS
  /\ Validator.check_fields Sample.DEMO_PATH (JObj d)
       Validator.REQUIRED_FIELDS = Some []
  /\ Validator.check_manifest (H := Sample.sample_runtime) w Sample.DEMO_PATH
     = Some []
  /\ run (Validator.main (H := Sample.sample_runtime) w Sample.env (Some 7))
       Sample.fresh
     = (Exit 0, Workflow.locked w Sample.fresh).
Proof.
  intros w d. split; [reflexivity|]. split; [by vm_compute|].
  split; [cbn; tauto|]. split; [by vm_compute|]. split; [by vm_compute|].
  by vm_compute.
Qed.

(** C8, amended.  For a manifest that parses to an object the icon path
    comes from its [package] field.  A missing icon file is reported as
    such and as nothing else.  For an icon file that is there, the size
    defect is reported exactly when the file is larger than 3072 bytes,
    whether or not the file opens.  When it opens as an image, the format
    defect is reported exactly when the format is not PNG and the dimension
    defect exactly when the image is not 32 by 32, each rule judged by
    itself, so that an icon that breaks several has all of them in the
    defects of the same run, each under a line of its own.  When it does
    not open, one read-failure defect is reported in the place of the
    format and the dimension defect. *)
Theorem icon_rules_independent `{PyRuntime} (w : world)
    (p bytes : string) (d : gmap string json) :
  fs w p = Content bytes ->
  json_loads bytes = Return (JObj d) ->
  let icon_path := Validator.icon_path_of (default JNull (d !! "package")) in
  exists errs,
    Validator.check_manifest w p = Some errs
    /\ (icon_at w icon_path = None ->
        Validator.IconMissing p icon_path ∈ errs
        /\ (Validator.IconTooLarge icon_path ∉ errs)
        /\ (Validator.IconNotPNG icon_path ∉ errs)
        /\ (Validator.IconBadDimensions icon_path ∉ errs)
        /\ forall e, Validator.IconUnreadable icon_path e ∉ errs)
    /\ (forall icon,
          icon_at w icon_path = Some icon ->
          (Validator.IconMissing p icon_path ∉ errs)
          /\ (Validator.IconTooLarge icon_path ∈ errs <-> 3072 < getsize icon)
          /\ (forall img,
                image_open icon = Return img ->
                (Validator.IconNotPNG icon_path ∈ errs
                 <-> format img <> "PNG")
                /\ (Validator.IconBadDimensions icon_path ∈ errs
                    <-> ~ (width img = 32 /\ height img = 32))
                /\ forall e, Validator.IconUnreadable icon_path e ∉ errs)
          /\ (forall e,
                image_open icon = Raise e ->
                Validator.IconUnreadable icon_path e ∈ errs
                /\ (Validator.IconNotPNG icon_path ∉ errs)
                /\ Validator.IconBadDimensions icon_path ∉ errs))
    /\ Validator.render (Validator.IconTooLarge icon_path)
       <> Validator.render (Validator.IconNotPNG icon_path)
    /\ Validator.render (Validator.IconTooLarge icon_path)
       <> Validator.render (Validator.IconBadDimensions icon_path)
    /\ Validator.render (Validator.IconNotPNG icon_path)
       <> Validator.render (Validator.IconBadDimensions icon_path)
    /\ (forall e,
          Validator.render (Validator.IconUnreadable icon_path e)
          <> Validator.render (Validator.IconTooLarge icon_path)).
Proof.
  intros Hfs Hload icon_path. eexists.
  split; [by apply (check_manifest_obj w p bytes)|].
  set (package := default JNull (d !! "package")) in *.
  assert (forall x,
            match x with
            | Validator.IconMissing _ _ | Validator.IconTooLarge _
            | Validator.IconNotPNG _ | Validator.IconBadDimensions _
            | Validator.IconUnreadable _ _ => True
            | _ => False
            end ->
            x ∈ map (Validator.MissingField p)
                  (List.filter (Workflow.absent d) Validator.REQUIRED_FIELDS)
                ++ Validator.check_icon w p package
                ++ Validator.check_url w p (default JNull (d !! "url"))
                     (default JNull (d !! "sha256"))
            <-> x ∈ Validator.check_icon w p package)
    as Hicon.
  { intros x Hx. rewrite !elem_of_app. split; [|tauto].
    intros [Hf|[Hi|Hu]]; [|done|].
    - apply fields_no_icon_defect in Hf. by destruct x.
    - apply url_no_icon_defect in Hu. by destruct x. }
  split; [|split; [|split; [|split; [|split]]]].
  - intros Hnone.
    split; [|split; [|split; [|split; [|intros e]]]];
      rewrite Hicon by done;
      rewrite (check_icon_missing w p package _ Hnone); done.
  - intros icon Hsome. split; [|split; [|split]].
    + rewrite Hicon by done. intros Hin.
      unfold Validator.check_icon in Hin. fold icon_path in Hin.
      rewrite Hsome in Hin. apply elem_of_app in Hin as [Hin|Hin].
      * by apply elem_of_when in Hin as [_ ?].
      * destruct (image_open icon) as [img|e].
        -- unfold Validator.check_image in Hin.
           apply elem_of_app in Hin as [Hin|Hin];
             by apply elem_of_unless in Hin as [_ ?].
        -- by apply list_elem_of_singleton in Hin.
    + rewrite Hicon by done. by apply check_icon_size.
    + intros img Himg. rewrite !Hicon by done.
      rewrite !(check_icon_image w p package icon img) by done.
      fold icon_path. split; [|split].
      * rewrite <- String.eqb_neq. split; [|by auto].
        by intros [[_ ?]|[[? _]|[_ ?]]].
      * unfold Validator.ICON_WIDTH, Validator.ICON_HEIGHT.
        rewrite <- Z.eqb_eq, <- Z.eqb_eq, <- andb_true_iff, not_true_iff_false.
        split; [|by auto]. by intros [[_ ?]|[[_ ?]|[? _]]].
      * intros e. rewrite Hicon by done.
        rewrite (check_icon_image w p package icon img) by done.
        by intros [[_ ?]|[[_ ?]|[_ ?]]].
    + intros e Himg. rewrite !Hicon by done.
      rewrite !(check_icon_unreadable w p package icon e) by done.
      fold icon_path. split; [by right|].
      split; by intros [[_ ?]|?].
  - unfold Validator.render. intros Heq.
    by apply String.app_inj, String.app_inj in Heq.
  - unfold Validator.render. intros Heq.
    by apply String.app_inj, String.app_inj in Heq.
  - unfold Validator.render. intros Heq.
    by apply String.app_inj, String.app_inj in Heq.
  - unfold Validator.render. intros e Heq.
    by apply String.app_inj, String.app_inj in Heq.
Qed.

Lemma icon_rules_independent_witness :
  let w := Sample.demo_world (Content Sample.demo_v1) (Some Sample.bad_icon)
             [Sample.DEMO_PATH] in
  exists errs,
    Validator.check_manifest (H := Sample.sample_runtime) w Sample.DEMO_PATH
    = Some errs
    /\ Validator.IconTooLarge "icons/demo.png" ∈ errs
    /\ Validator.IconNotPNG "icons/demo.png" ∈ errs
    /\ Validator.IconBadDimensions "icons/demo.png" ∈ errs.
Proof.
  intros w.
  destruct (icon_rules_independent (H := Sample.sample_runtime) w
              Sample.DEMO_PATH Sample.demo_v1
              (Sample.manifest_dict (JStr "Demo") "1.0"))
    as (errs & Herrs & _ & Hrules & _).
  - reflexivity.
  - reflexivity.
  - destruct (Hrules Sample.bad_icon eq_refl) as (_ & Hsize & Himage & _).
    destruct (Himage (Image "JPEG" 64 64) eq_refl) as (Hformat & Hdims & _).
    exists errs. split; [exact Herrs|]. split; [|split].
    + apply Hsize. reflexivity.
    + apply Hformat. discriminate.
    + apply Hdims. intros [Hw _]. discriminate Hw.
Defined.

(** C8 as stated fails on an icon file that is no image: of 4000 bytes and
    refused by [Image.open], it is not a PNG and not 32 by 32, and yet
    neither the format defect nor the dimension defect is among the
    defects, which are the size defect and one read-failure defect. *)
Lemma unreadable_icon_counterexample :
  let garbage :=
    Icon 4000 (Raise "cannot identify image file 'icons/demo.png'") in
  let w := Sample.demo_world (Content Sample.demo_v1) (Some garbage)
             [Sample.DEMO_PATH] in
  let errs :=
    [ Validator.IconTooLarge "icons/demo.png";
      Validator.IconUnreadable "icons/demo.png"
        "cannot identify image file 'icons/demo.png'" ] in
  icon_at w "icons/demo.png" = Some garbage
  /\ (forall img, image_open garbage <> Return img)
  /\ Validator.check_manifest (H := Sample.sample_runtime) w Sample.DEMO_PATH
     = Some errs
  /\ (Validator.IconNotPNG "icons/demo.png" ∉ errs)
  /\ (Validator.IconBadDimensions "icons/demo.png" ∉ errs).
Proof.
  intros garbage w errs. split; [reflexivity|]. split; [done|].
  split; [by vm_compute|].
  split; intros Hin; apply list_elem_of_In in Hin; cbn in Hin;
    by destruct Hin as [?|[?|?]].
Qed.




(** A stored text that parses to JSON null counts as no entry: the lookup
    stops at it and the approval check refuses. *)
Example null_ledger_is_no_ledger :
  let w := Sample.demo_world NoFile None ["README.md"] in
  let h := Sample.under_review
             [ Sample.marker_comment "alice" Sample.ledger_text;
               Sample.marker_comment "mallory" "null" ] in
  Dispatcher.find_manifest_hash_comment (H := Sample.sample_runtime)
    (comments h) Dispatcher.MARKER_START_DEFAULT
  = (Some (Sample.marker_comment "mallory" "null"), JNull)
  /\ run (Dispatcher.main (H := Sample.sample_runtime) w Sample.env
            (Sample.command "Artyomka628" "@bot allow")) h
     = (Exit 0, Workflow.post w Dispatcher.no_stored_hashes_comment h).
Proof. intros w h. split; by vm_compute. Qed.

(** * Further properties of the two scripts *)

Section comparison.
Context `{PyRuntime} (w : world).
Import Dispatcher Workflow.

Lemma hash_file_content (p digest : string) :
  hash_file w p = Some digest <->
  exists bytes, fs w p = Content bytes /\ sha256_hexdigest bytes = digest.
Proof.
  unfold hash_file. destruct (fs w p) as [|e|bytes].
  - split; [done|]. by intros (? & ? & _).
  - split; [done|]. by intros (? & ? & _).
  - split; [intros [= <-]; eauto|]. by intros (? & [= <-] & <-).
Qed.

(** A path raises no line exactly when the mapping records its digest. *)
Lemma mismatch_msg_none (d : gmap string json) (p : string) :
  mismatch_msg w d p = None <-> recorded w d p.
Proof.
  unfold mismatch_msg, recorded. split.
  - destruct (hash_file w p) as [digest|] eqn:Hh; [|done].
    apply hash_file_content in Hh as (bytes & Hfs & <-).
    destruct (String.eqb_spec (sha256_hexdigest bytes) EmptyString); [done|].
    destruct (eq_str _ _) eqn:Hs; [|done]. intros _.
    apply eq_str_true in Hs. exists bytes. split; [done|]. split; [done|].
    destruct (d !! p) as [v|]; cbn in Hs; congruence.
  - intros (bytes & Hfs & Hne & Hd).
    assert (hash_file w p = Some (sha256_hexdigest bytes)) as ->
      by (apply hash_file_content; eauto).
    apply String.eqb_neq in Hne. rewrite Hne, Hd. cbn [default from_option id].
    by rewrite (proj2 (eq_str_true _ _) eq_refl).
Qed.

Lemma omap_mismatch_nil (d : gmap string json) (paths : list string) :
  omap (mismatch_msg w d) paths = [] <-> Forall (recorded w d) paths.
Proof.
  induction paths as [|p paths IH]; [by split|].
  cbn [omap list_omap]. fold (omap (mismatch_msg w d) paths).
  rewrite Forall_cons, <- IH, <- mismatch_msg_none.
  destruct (mismatch_msg w d p); [split; [done|by intros [? _]]|tauto].
Qed.

End comparison.

(** X1.  The comparison loop of the dispatcher comes out without a mismatch
    exactly when every changed manifest is a readable file whose digest is
    the string the stored mapping holds under its path.  A path the mapping
    lacks counts as changed; what the mapping holds beyond the changed
    manifests is not looked at. *)
Theorem comparison_passes_iff_recorded `{PyRuntime} (w : world)
    (d : gmap string json) (manifest_paths : list string) :
  Dispatcher.compare_hashes (JObj d)
    (Dispatcher.compute_local_hashes w manifest_paths) (false, [])
    manifest_paths = Some (false, [])
  <-> Forall (recorded w d) manifest_paths.
Proof.
  rewrite compare_hashes_spec by done. cbn [fst snd app].
  rewrite <- omap_mismatch_nil.
  destruct (omap _ manifest_paths); [done|]. split; [|done]. by intros [=].
Qed.

(** X2.  [compute_local_hashes] answers for every path it was given, and
    for no other: the digest of the file where the checkout has it, [None]
    where the file is missing or cannot be read. *)
Theorem compute_local_hashes_lookup_spec `{PyRuntime} (w : world)
    (manifest_paths : list string) (p : string) :
  Dispatcher.compute_local_hashes w manifest_paths !! p =
  if bool_decide (p ∈ manifest_paths)
  then Some (match fs w p with
             | Content bytes => Some (sha256_hexdigest bytes)
             | NoFile | Unreadable _ => None
             end)
  else None.
Proof.
  unfold Dispatcher.compute_local_hashes. rewrite foldl_hashes_lookup.
  by destruct (bool_decide _).
Qed.

Section validator_frame.
Context `{PyRuntime} (w : world).
Import Validator Workflow.

(** The ways a run of the validator can end; which one it is does not
    depend on the thread. *)
Lemma validator_cases (env : environ) (pr : option Z) :
  (exists n, forall h, run (main w env pr) h = (Exit n, h))
  \/ (forall h, run (main w env pr) h = (Traceback, h))
  \/ (manifests_of w <> []
      /\ check_manifests w (manifests_of w) = Some []
      /\ forall h, run (main w env pr) h = (Exit 0, locked w h))
  \/ (exists e es,
        check_manifests w (manifests_of w) = Some (e :: es)
        /\ forall h,
             run (main w env pr) h = (Exit 1, invalidated w (e :: es) h)).
Proof.
  destruct (configured env) eqn:Hc;
    [|left; eexists; intros h; by apply validator_unconfigured].
  destruct (no_pr pr) eqn:Hpr;
    [left; eexists; intros h; by apply validator_no_pr|].
  assert (manifests_of w = [] \/ manifests_of w <> []) as [Hm|Hm]
    by (destruct (manifests_of w); [by left|by right]);
    [left; eexists; intros h; by apply validator_no_manifests|].
  destruct (check_manifests w (manifests_of w)) as [[|e es]|] eqn:Hcheck.
  - right. right. left. split; [done|]. split; [done|].
    intros h. by apply validator_clean.
  - right. right. right. exists e, es. split; [done|].
    intros h. by apply validator_defects.
  - right. left. intros h. by apply validator_crash.
Qed.

(** The validator calls neither the merge nor the close. *)
Lemma validator_keeps_calls (env : environ) (pr : option Z) (h : host) :
  calls (run (main w env pr) h).2 = calls h.
Proof.
  destruct (validator_cases env pr)
    as [[n Hrun]|[Hrun|[(_ & _ & Hrun)|(e & es & _ & Hrun)]]];
    by rewrite Hrun.
Qed.

End validator_frame.

(** X3.  Whatever the validator is run on, it never merges or closes, it
    adds at most one comment and removes none, and of the labels it touches
    only [On review] and [Invalid manifest]; after the run these two are
    never both on the thread unless they both were before and the run left
    the labels alone. *)
Theorem validator_touches_two_labels `{PyRuntime} (w : world)
    (env : environ) (pr : option Z) (h : host) :
  let h' := (run (Validator.main w env pr) h).2 in
  calls h' = calls h
  /\ (comments h' = comments h \/ exists c, comments h' = comments h ++ [c])
  /\ (forall l, l <> ON_REVIEW -> l <> INVALID_MANIFEST ->
        l ∈ labels h' <-> l ∈ labels h)
  /\ (labels h' = labels h
      \/ ~ (ON_REVIEW ∈ labels h' /\ INVALID_MANIFEST ∈ labels h')).
Proof.
  destruct (validator_cases w env pr)
    as [[n Hrun]|[Hrun|[(_ & _ & Hrun)|(e & es & _ & Hrun)]]];
    rewrite Hrun; cbn [snd].
  - split; [done|]. split; [by left|]. split; [done|by left].
  - split; [done|]. split; [by left|]. split; [done|by left].
  - unfold Workflow.locked, ON_REVIEW, INVALID_MANIFEST.
    cbn [labels comments calls].
    split; [done|]. split; [right; eauto|]. split; [|right]; set_solver.
  - unfold Workflow.invalidated, ON_REVIEW, INVALID_MANIFEST.
    cbn [labels comments calls].
    split; [done|]. split; [right; eauto|]. split; [|right]; set_solver.
Qed.



Section dispatcher_branches.
Context `{PyRuntime} (w : world).
Import Dispatcher Workflow.

Lemma main_unready (env : environ) (ev : event) (h : host) :
  ready env ev = false -> exists n, run (main w env ev) h = (Exit n, h).
Proof.
  intros Hf. unfold main.
  destruct (unset (GITHUB_TOKEN env)) eqn:Ht; [eauto|].
  destruct (unset (GITHUB_REPOSITORY env)) eqn:Hr; [eauto|].
  destruct (pr_number ev) as [n|] eqn:Hn; [|eauto]. exfalso.
  unfold ready, configured in Hf. rewrite Ht, Hr, Hn in Hf.
  cbn [negb andb] in Hf. apply bool_decide_eq_false in Hf. eauto.
Qed.

Lemma main_unaddressed (env : environ) (ev : event) (h : host) :
  ready env ev = true ->
  contains "@bot" (strip (comment_body ev)) = false ->
  run (main w env ev) h = (Exit 0, h).
Proof.
  intros (Ht & Hr & n & Hn)%ready_inv Hb. unfold main.
  by rewrite Ht, Hr, Hn, Hb.
Qed.

Lemma main_unknown (env : environ) (ev : event) (h : host) :
  ready env ev = true ->
  contains "@bot" (strip (comment_body ev)) = true ->
  check_command (comment_body ev) = false ->
  moderation_command (comment_body ev) = false ->
  run (main w env ev) h = (Exit 0, post w unknown_comment h).
Proof.
  intros (Ht & Hr & n & Hn)%ready_inv Hb Hc.
  unfold moderation_command, allow_command, deny_command.
  unfold check_command in Hc. unfold main. rewrite Ht, Hr, Hn, Hb, Hc.
  cbn [negb andb].
  destruct (contains "@bot allow" _); [done|].
  by destruct (contains "@bot deny" _).
Qed.

Lemma moderation_not_check (text : string) :
  moderation_command text = true -> check_command text = false.
Proof. by intros (_ & ? & _)%moderation_command_inv. Qed.

Lemma moderation_cases (text : string) :
  moderation_command text = true ->
  (allow_command text = true
   /\ contains "@bot allow" (strip text) = true)
  \/ (deny_command text = true
      /\ contains "@bot allow" (strip text) = false).
Proof.
  unfold moderation_command, allow_command, deny_command.
  destruct (contains "@bot check" _); [done|].
  destruct (contains "@bot allow" _); [by left|].
  destruct (contains "@bot deny" _); [by right|done].
Qed.

Lemma deny_run (text : string) (h : host) :
  contains "@bot allow" text = false ->
  run (allow_or_deny w text) h =
  match close_error w with
  | None => (Exit 0, closed w h)
  | Some e => (Exit 1, close_failed w e h)
  end.
Proof.
  intros Ha. unfold allow_or_deny. rewrite Ha. script_simpl.
  by destruct (close_error w).
Qed.

(** A stored value that is neither [None] nor a dict makes the first
    iteration of the comparison raise. *)
Lemma approval_crash (text : string) (h : host) :
  has_label ON_REVIEW (labels h) = true ->
  lookup h <> JNull ->
  (forall d, lookup h <> JObj d) ->
  manifests_of w <> [] ->
  run (approval_gate w text) h = (Traceback, h).
Proof.
  unfold lookup, approval_gate, manifests_of. intros Hl. script_simpl.
  rewrite Hl. cbn [negb].
  destruct (find_manifest_hash_comment _ _) as [c stored]. cbn [snd].
  intros Hnull Hobj Hpaths.
  destruct (List.filter is_manifest (changed_files w)) as [|p paths];
    [done|].
  destruct stored as [|b|z|zero r|s|l|d]; try done.
  by destruct (Hobj d).
Qed.

(** With every changed manifest recorded, the command is carried out. *)
Lemma approval_passes (text : string) (h : host) (d : gmap string json) :
  has_label ON_REVIEW (labels h) = true ->
  lookup h = JObj d ->
  Forall (recorded w d) (manifests_of w) ->
  run (approval_gate w text) h = run (allow_or_deny w text) h.
Proof.
  intros Hl Hd Hrec%omap_mismatch_nil.
  by rewrite (approval_ledger w text h d Hl Hd), Hrec.
Qed.

End dispatcher_branches.

(** X5.  The dispatcher merges or closes at most once in a run, and only
    behind every check: the run was configured and had a thread, the
    comment was an allow (for the merge) or a deny (for the close) and no
    check command, its author was the moderator, the thread was
    [On review], a stored value was found, and either no manifest was among
    the changed files or the stored mapping recorded the digest of every
    one of them. *)
Theorem actions_only_behind_approval `{PyRuntime} (w : world)
    (env : environ) (ev : Dispatcher.event) (h : host) :
  let h' := (run (Dispatcher.main w env ev) h).2 in
  calls h' = calls h
  \/ ((calls h' = calls h ++ [Merge]
       /\ Workflow.allow_command (Dispatcher.comment_body ev) = true
       \/ calls h' = calls h ++ [Close]
          /\ Workflow.deny_command (Dispatcher.comment_body ev) = true)
      /\ Workflow.ready env ev = true
      /\ Workflow.by_moderator ev = true
      /\ has_label ON_REVIEW (labels h) = true
      /\ Workflow.lookup h <> JNull
      /\ (Workflow.manifests_of w = []
          \/ exists d,
               Workflow.lookup h = JObj d
               /\ Forall (recorded w d) (Workflow.manifests_of w))).
Proof.
  intros h'. subst h'.
  destruct (Workflow.ready env ev) eqn:Hready;
    [|destruct (main_unready w env ev h Hready) as [n ->]; by left].
  destruct (contains "@bot" (strip (Dispatcher.comment_body ev))) eqn:Hbot;
    [|rewrite main_unaddressed by done; by left].
  destruct (Workflow.check_command (Dispatcher.comment_body ev)) eqn:Hcheck.
  { left. rewrite main_check by done.
    pose proof (validator_keeps_calls w env
                  (Dispatcher.validator_pr_number ev)
                  (Workflow.post w
                     (Dispatcher.running_comment (Dispatcher.comment_user ev))
                     h)) as Hcalls.
    destruct (run (Validator.main w env _) _) as [o h1]. done. }
  destruct (Workflow.moderation_command (Dispatcher.comment_body ev))
    eqn:Hcmd; [|rewrite main_unknown by done; by left].
  destruct (Workflow.by_moderator ev) eqn:Hmod;
    [|rewrite main_unauthorized by done; by left].
  rewrite main_moderated by done.
  destruct (has_label ON_REVIEW (labels h)) eqn:Hrev;
    [|rewrite approval_not_on_review by done; by left].
  assert (calls
            (run (Dispatcher.allow_or_deny w
                    (strip (Dispatcher.comment_body ev))) h).2
          = calls h ++ [Merge]
          /\ Workflow.allow_command (Dispatcher.comment_body ev) = true
          \/ calls
               (run (Dispatcher.allow_or_deny w
                       (strip (Dispatcher.comment_body ev))) h).2
             = calls h ++ [Close]
             /\ Workflow.deny_command (Dispatcher.comment_body ev) = true)
    as Hact.
  { destruct (moderation_cases _ Hcmd) as [[Ha Hc]|[Hd Hc]].
    - left. rewrite allow_run by done. by destruct (merge_error w).
    - right. rewrite deny_run by done. by destruct (close_error w). }
  assert (Workflow.lookup h = JNull
          \/ (exists d, Workflow.lookup h = JObj d)
          \/ (Workflow.lookup h <> JNull
              /\ forall d, Workflow.lookup h <> JObj d))
    as [Hled|[[d Hled]|[Hnull Hobj]]]
    by (destruct (Workflow.lookup h); eauto).
  { left. by rewrite approval_no_ledger. }
  2:{ destruct (Workflow.manifests_of w) as [|p paths] eqn:Hpaths.
      - right. rewrite approval_vacuous by done. auto 10.
      - left. rewrite approval_crash; [done..|]. by rewrite Hpaths. }
  rewrite (approval_ledger w _ h d Hrev Hled).
  destruct (omap (Workflow.mismatch_msg w d) (Workflow.manifests_of w))
    as [|m ms] eqn:Hmsgs; [|by left].
  right. split; [done|]. split; [done|]. split; [done|]. split; [done|].
  split; [by rewrite Hled|].
  right. exists d. split; [done|]. by apply omap_mismatch_nil.
Qed.

(** X6.  The moderator's allow on a thread under review whose stored
    mapping records every changed manifest calls the merge.  When the merge
    succeeds the thread loses [On review], gains [Approved] and is told so,
    with status 0; when the host refuses it the labels stay as they were,
    the refusal is posted and the status is 1. *)
Theorem recorded_allow_merges `{PyRuntime} (w : world) (env : environ)
    (ev : Dispatcher.event) (h : host) (d : gmap string json) :
  Workflow.ready env ev = true ->
  Workflow.allow_command (Dispatcher.comment_body ev) = true ->
  Workflow.by_moderator ev = true ->
  has_label ON_REVIEW (labels h) = true ->
  Workflow.lookup h = JObj d ->
  Forall (recorded w d) (Workflow.manifests_of w) ->
  run (Dispatcher.main w env ev) h
  = match merge_error w with
    | None => (Exit 0, Workflow.merged w h)
    | Some e => (Exit 1, Workflow.merge_failed w e h)
    end
  /\ (APPROVED ∈ labels (Workflow.merged w h))
  /\ (ON_REVIEW ∉ labels (Workflow.merged w h))
  /\ (forall e, labels (Workflow.merge_failed w e h) = labels h).
Proof.
  intros Hready Hallow Hmod Hrev Hled Hrec. split.
  - rewrite main_moderated by auto using allow_is_moderation.
    rewrite (approval_passes w _ h d) by done.
    by apply allow_run, allow_command_inv.
  - unfold Workflow.merged, ON_REVIEW, APPROVED. cbn [labels].
    split; [set_solver|]. split; [set_solver|done].
Qed.

Lemma recorded_allow_merges_witness :
  let w := Sample.demo_world (Content Sample.demo_v1) (Some Sample.good_icon)
             [Sample.DEMO_PATH; "README.md"] in
  let h := Sample.under_review
             [Sample.marker_comment "alice" Sample.ledger_text] in
  run (Dispatcher.main (H := Sample.sample_runtime) w Sample.env
         (Sample.command "Artyomka628" "@bot allow")) h
  = (Exit 0, Workflow.merged w h).
Proof.
  intros w h.
  refine (proj1 (recorded_allow_merges (H := Sample.sample_runtime) w
                   Sample.env (Sample.command "Artyomka628" "@bot allow") h
                   {[ Sample.DEMO_PATH := JStr Sample.DEMO_V1_SHA256 ]}
                   _ _ _ _ _ _)).
  - reflexivity.
  - reflexivity.
  - reflexivity.
  - vm_compute. reflexivity.
  - vm_compute. reflexivity.
  - apply Forall_cons. split; [|apply Forall_nil_2].
    exists Sample.demo_v1. vm_compute.
    split; [reflexivity|]. split; [discriminate|reflexivity].
Defined.

(** X7.  The moderator's deny, under the same conditions, closes the
    submission: on success the thread loses [On review] and gains
    [Rejected], with status 0; when the host refuses the close the labels
    stay and the status is 1.  A deny never merges. *)
Theorem recorded_deny_closes `{PyRuntime} (w : world) (env : environ)
    (ev : Dispatcher.event) (h : host) (d : gmap string json) :
  Workflow.ready env ev = true ->
  Workflow.deny_command (Dispatcher.comment_body ev) = true ->
  Workflow.by_moderator ev = true ->
  has_label ON_REVIEW (labels h) = true ->
  Workflow.lookup h = JObj d ->
  Forall (recorded w d) (Workflow.manifests_of w) ->
  run (Dispatcher.main w env ev) h
  = match close_error w with
    | None => (Exit 0, closed w h)
    | Some e => (Exit 1, close_failed w e h)
    end
  /\ (REJECTED ∈ labels (closed w h))
  /\ (ON_REVIEW ∉ labels (closed w h))
  /\ calls (closed w h) = calls h ++ [Close]
  /\ (forall e,
        labels (close_failed w e h) = labels h
        /\ calls (close_failed w e h) = calls h ++ [Close]).
Proof.
  intros Hready Hdeny Hmod Hrev Hled Hrec.
  assert (Workflow.moderation_command (Dispatcher.comment_body ev) = true)
    as Hcmd by (unfold Workflow.moderation_command; rewrite Hdeny;
                apply orb_true_r).
  split.
  - rewrite main_moderated by done.
    rewrite (approval_passes w _ h d) by done. apply deny_run.
    destruct (moderation_cases _ Hcmd) as [[Ha _]|[_ Hc]]; [|done].
    unfold Workflow.allow_command, Workflow.deny_command in *.
    destruct (contains "@bot check" _); [done|].
    by destruct (contains "@bot allow" _).
  - unfold closed, ON_REVIEW, REJECTED. cbn [labels calls].
    split; [set_solver|]. split; [set_solver|done].
Qed.

Lemma recorded_deny_closes_witness :
  let w := Sample.demo_world (Content Sample.demo_v1) (Some Sample.good_icon)
             [Sample.DEMO_PATH] in
  let h := Sample.under_review
             [Sample.marker_comment "alice" Sample.ledger_text] in
  run (Dispatcher.main (H := Sample.sample_runtime) w Sample.env
         (Sample.command "Artyomka628" "no. @bot deny")) h
  = (Exit 0, closed w h).
Proof.
  intros w h.
  refine (proj1 (recorded_deny_closes (H := Sample.sample_runtime) w
                   Sample.env (Sample.command "Artyomka628" "no. @bot deny")
                   h {[ Sample.DEMO_PATH := JStr Sample.DEMO_V1_SHA256 ]}
                   _ _ _ _ _ _)).
  - reflexivity.
  - reflexivity.
  - reflexivity.
  - vm_compute. reflexivity.
  - vm_compute. reflexivity.
  - apply Forall_cons. split; [|apply Forall_nil_2].
    exists Sample.demo_v1. vm_compute.
    split; [reflexivity|]. split; [discriminate|reflexivity].
Defined.

(** X8.  Once a thread has been merged, closed or demoted by the
    dispatcher it is no longer [On review], so a further allow or deny of
    the moderator is refused with the not-under-review comment and calls
    nothing: no submission is merged twice, and a demoted one is not
    approved before a validation has put the label back. *)
Theorem settled_thread_refuses `{PyRuntime} (w : world) (env : environ)
    (ev : Dispatcher.event) (h : host) (msgs : list string) :
  Workflow.ready env ev = true ->
  Workflow.moderation_command (Dispatcher.comment_body ev) = true ->
  Workflow.by_moderator ev = true ->
  forall h',
    h' = Workflow.merged w h \/ h' = closed w h
    \/ h' = Workflow.demoted w msgs h ->
    run (Dispatcher.main w env ev) h'
    = (Exit 0, Workflow.post w Dispatcher.not_on_review_comment h')
    /\ calls (Workflow.post w Dispatcher.not_on_review_comment h') = calls h'.
Proof.
  intros Hready Hcmd Hmod h' Hh'. split; [|done].
  rewrite main_moderated by done. apply approval_not_on_review.
  apply has_label_false.
  destruct Hh' as [-> | [-> | ->]];
    unfold Workflow.merged, closed, Workflow.demoted, ON_REVIEW, APPROVED,
      REJECTED, INVALID_MANIFEST; cbn [labels]; set_solver.
Qed.

Lemma settled_thread_refuses_witness :
  let w := Sample.demo_world (Content Sample.demo_v1) (Some Sample.good_icon)
             [Sample.DEMO_PATH] in
  let h := Workflow.merged w
             (Sample.under_review
                [Sample.marker_comment "alice" Sample.ledger_text]) in
  run (Dispatcher.main (H := Sample.sample_runtime) w Sample.env
         (Sample.command "Artyomka628" "@bot allow")) h
  = (Exit 0, Workflow.post w Dispatcher.not_on_review_comment h).
Proof.
  intros w h.
  refine (proj1 (settled_thread_refuses (H := Sample.sample_runtime) w
                   Sample.env (Sample.command "Artyomka628" "@bot allow")
                   (Sample.under_review
                      [Sample.marker_comment "alice" Sample.ledger_text])
                   [] _ _ _ h _)).
  - reflexivity.
  - reflexivity.
  - reflexivity.
  - left. reflexivity.
Defined.

(** X9.  A comment that does not mention the bot changes nothing at all; a
    comment that mentions it without one of the three commands is answered
    with the list of commands and changes nothing else. *)
Theorem no_command_no_change `{PyRuntime} (w : world) (env : environ)
    (ev : Dispatcher.event) (h : host) :
  Workflow.ready env ev = true ->
  Workflow.check_command (Dispatcher.comment_body ev) = false ->
  Workflow.moderation_command (Dispatcher.comment_body ev) = false ->
  run (Dispatcher.main w env ev) h
  = (Exit 0,
     if contains "@bot" (strip (Dispatcher.comment_body ev))
     then Workflow.post w Dispatcher.unknown_comment h
     else h).
Proof.
  intros Hready Hcheck Hcmd.
  destruct (contains "@bot" _) eqn:Hbot.
  - by apply main_unknown.
  - by apply main_unaddressed.
Qed.

Lemma no_command_no_change_witness :
  let w := Sample.demo_world (Content Sample.demo_v1) (Some Sample.good_icon)
             [Sample.DEMO_PATH] in
  let h := Sample.under_review [] in
  run (Dispatcher.main (H := Sample.sample_runtime) w Sample.env
         (Sample.command "Artyomka628" "please allow this")) h = (Exit 0, h)
  /\ run (Dispatcher.main (H := Sample.sample_runtime) w Sample.env
            (Sample.command "Artyomka628" "@bot approve")) h
     = (Exit 0, Workflow.post w Dispatcher.unknown_comment h).
Proof.
  intros w h. split.
  - apply (no_command_no_change (H := Sample.sample_runtime) w Sample.env
             (Sample.command "Artyomka628" "please allow this") h);
      reflexivity.
  - apply (no_command_no_change (H := Sample.sample_runtime) w Sample.env
             (Sample.command "Artyomka628" "@bot approve") h);
      reflexivity.
Defined.

(** X10.  A manifest that parses to an object passes the validator without
    a defect exactly when every required field is a key of it, the icon
    named after its [package] is there, is at most 3072 bytes and opens as
    a 32 by 32 PNG, and its [url] is either empty (then nothing is
    downloaded) or answers 200 with a body whose SHA-256 is the string
    under [sha256]. *)
Theorem manifest_accepted_iff `{PyRuntime} (w : world) (p bytes : string)
    (d : gmap string json) :
  fs w p = Content bytes ->
  json_loads bytes = Return (JObj d) ->
  Validator.check_manifest w p = Some [] <->
  (forall f, f ∈ Validator.REQUIRED_FIELDS -> is_Some (d !! f))
  /\ (exists icon,
        icon_at w (Validator.icon_path_of (default JNull (d !! "package")))
        = Some icon
        /\ conforming icon)
  /\ verified w (default JNull (d !! "url")) (default JNull (d !! "sha256")).
Proof.
  intros Hfs Hload. rewrite (check_manifest_obj w p bytes d Hfs Hload).
  rewrite <- no_field_absent, <- check_icon_nil, <- (check_url_nil w p).
  split.
  - intros [= Hnil]. apply app_eq_nil in Hnil as [Hf Hrest].
    apply app_eq_nil in Hrest as [Hi Hu].
    split; [|done]. eapply map_eq_nil. exact Hf.
  - by intros (-> & -> & ->).
Qed.

Lemma manifest_accepted_iff_witness :
  let w := Sample.demo_world (Content Sample.demo_v1) (Some Sample.good_icon)
             [Sample.DEMO_PATH] in
  Validator.check_manifest (H := Sample.sample_runtime) w Sample.DEMO_PATH
  = Some [].
Proof.
  intros w.
  apply (manifest_accepted_iff (H := Sample.sample_runtime) w
           Sample.DEMO_PATH Sample.demo_v1
           (Sample.manifest_dict (JStr "Demo") "1.0")).
  - reflexivity.
  - reflexivity.
  - split; [|split].
    + intros f Hf. apply list_elem_of_In in Hf. cbn in Hf.
      repeat (destruct Hf as [<-|Hf]; [by vm_compute; eauto|]). done.
    + exists Sample.good_icon. split; [reflexivity|].
      split; [by vm_compute|]. by exists (Image "PNG" 32 32).
    + right. exists (Response 200 "hello"). by vm_compute.
Defined.

(** X11.  A manifest whose [url] is missing, null or empty is not
    downloaded: its defects are those of its fields and of its icon, and
    neither the network nor the declared hash has a say in them. *)
Theorem empty_url_skips_download `{PyRuntime} (w : world) (p bytes : string)
    (d : gmap string json) :
  fs w p = Content bytes ->
  json_loads bytes = Return (JObj d) ->
  truthy (default JNull (d !! "url")) = false ->
  Validator.check_manifest w p
  = Some (map (Validator.MissingField p)
            (List.filter (Workflow.absent d) Validator.REQUIRED_FIELDS)
          ++ Validator.check_icon w p (default JNull (d !! "package")))
  /\ (forall w',
        fs w' = fs w -> icon_at w' = icon_at w ->
        Validator.check_manifest w' p = Validator.check_manifest w p).
Proof.
  intros Hfs Hload Hurl.
  assert (forall w0, fs w0 p = Content bytes ->
            Validator.check_manifest w0 p
            = Some (map (Validator.MissingField p)
                      (List.filter (Workflow.absent d)
                         Validator.REQUIRED_FIELDS)
                    ++ Validator.check_icon w0 p
                         (default JNull (d !! "package")))) as Hany.
  { intros w0 Hfs0. rewrite (check_manifest_obj w0 p bytes d Hfs0 Hload).
    unfold Validator.check_url. by rewrite Hurl, app_nil_r. }
  split; [by apply Hany|]. intros w' Hfs' Hicon'.
  rewrite !Hany by (by rewrite ?Hfs'). unfold Validator.check_icon.
  by rewrite Hicon'.
Qed.

Lemma empty_url_skips_download_witness :
  let w := Sample.demo_world (Content "{}") (Some Sample.good_icon)
             [Sample.DEMO_PATH] in
  Validator.check_manifest (H := Sample.sample_runtime) w Sample.DEMO_PATH
  = Some (map (Validator.MissingField Sample.DEMO_PATH)
            Validator.REQUIRED_FIELDS
          ++ [Validator.IconMissing Sample.DEMO_PATH "icons/None.png"]).
Proof.
  intros w.
  refine (proj1 (empty_url_skips_download (H := Sample.sample_runtime) w
                   Sample.DEMO_PATH "{}" ∅ _ _ _)); reflexivity.
Defined.

(** X12.  One changed manifest that parses to something else than an
    object (a list, a string, a number, null) ends the validator with an
    uncaught exception: nothing is posted, no label is touched, and the
    defects found in the other manifests are lost with it. *)
Theorem non_object_manifest_aborts `{PyRuntime} (w : world) (env : environ)
    (pr : option Z) (h : host) (p bytes : string) (v : json) :
  Workflow.configured env = true ->
  Validator.no_pr pr = false ->
  p ∈ Workflow.manifests_of w ->
  fs w p = Content bytes ->
  json_loads bytes = Return v ->
  (forall d, v <> JObj d) ->
  run (Validator.main w env pr) h = (Traceback, h).
Proof.
  intros Hc Hpr Hp Hfs Hload Hv. apply validator_crash; [done..|].
  pose proof (check_manifest_not_object w p bytes v Hfs Hload Hv) as Hnone.
  induction (Workflow.manifests_of w) as [|q qs IH];
    [by apply elem_of_nil in Hp|].
  cbn [Validator.check_manifests].
  apply elem_of_cons in Hp as [<-|Hp]; [by rewrite Hnone|].
  rewrite (IH Hp). by destruct (Validator.check_manifest w q).
Qed.

Lemma non_object_manifest_aborts_witness :
  let w := Sample.demo_world (Content "null") None
             ["manifests/bad.json"; Sample.DEMO_PATH] in
  run (Validator.main (H := Sample.sample_runtime) w Sample.env (Some 7))
    Sample.fresh
  = (Traceback, Sample.fresh).
Proof.
  intros w.
  apply (non_object_manifest_aborts (H := Sample.sample_runtime) w
           Sample.env (Some 7) Sample.fresh Sample.DEMO_PATH "null" JNull).
  - reflexivity.
  - reflexivity.
  - vm_compute. apply list_elem_of_further, list_elem_of_here.
  - reflexivity.
  - reflexivity.
  - discriminate.
Defined.

Section events_facts.
Context `{PyRuntime} `{Events.PyInt}.
Import Events Workflow.

Lemma split_not_nil (sep : ascii) (s : string) : split sep s <> [].
Proof.
  induction s as [|c s IH]; [done|]. cbn [split].
  destruct (Ascii.eqb c sep); [done|]. by destruct (split sep s).
Qed.

Lemma split_cons (sep c : ascii) (s : string) :
  split sep (String c s) =
  if Ascii.eqb c sep then EmptyString :: split sep s
  else match split sep s with
       | [] => [String c EmptyString]
       | part :: parts => String c part :: parts
       end.
Proof. done. Qed.

(** The first part ends at the first separator. *)
Lemma split_app (sep : ascii) (a b : string) :
  occurs sep a = false ->
  split sep (a +:+ String sep b) = a :: split sep b.
Proof.
  induction a as [|c a IH]; intros Ha.
  - change (EmptyString +:+ String sep b) with (String sep b).
    by rewrite split_cons, Ascii.eqb_refl.
  - cbn [occurs] in Ha. apply orb_false_elim in Ha as [Hc Ha].
    change (String c a +:+ String sep b) with (String c (a +:+ String sep b)).
    rewrite split_cons, Ascii.eqb_sym, Hc. by rewrite (IH Ha).
Qed.

Lemma nonempty_truthy (d : gmap string json) (k : string) (v : json) :
  d !! k = Some v -> truthy (JObj d) = true.
Proof.
  intros Hk. cbn [truthy]. destruct (map_to_list d) eqn:Hl; [|done].
  apply map_to_list_empty_iff in Hl. by rewrite Hl, lookup_empty in Hk.
Qed.

Lemma key_in (d : gmap string json) (k : string) :
  py_in k (JObj d) = Some (bool_decide (is_Some (d !! k))).
Proof. done. Qed.

End events_facts.

(** X13.  For an event whose payload names the thread under [issue] and has
    no [pull_request] entry, while [GITHUB_REF] is no pull-request ref, the
    dispatcher finds the thread and the validator finds none.  A check
    command on such an event therefore validates nothing: the validator
    leaves at once with status 0, and the dispatcher posts that the
    validation is running and that it has completed, with the labels as
    they were, whatever state the changed manifests are in. *)
Theorem issue_event_check_validates_nothing `{PyRuntime} `{Events.PyInt}
    (w : world) (env : environ) (vars : Events.variables)
    (d issue : gmap string json) (n : Z) (moderator : string)
    (ev : Dispatcher.event) (h : host) :
  d !! "issue" = Some (JObj issue) ->
  issue !! "number" = Some (JInt n) ->
  d !! "pull_request" = None ->
  startswith (default EmptyString (Events.GITHUB_REF vars)) "refs/pull/"
  = false ->
  Events.event_of (JObj d) vars moderator = Some ev ->
  Workflow.configured env = true ->
  Workflow.check_command (Dispatcher.comment_body ev) = true ->
  Events.get_pr_number_from_event (JObj d) vars = Some (Some n)
  /\ Events.get_pr_number (JObj d) vars = Some JNull
  /\ run (Dispatcher.main w env ev) h
     = (Exit 0,
        Workflow.post w Dispatcher.completed_comment
          (Workflow.post w
             (Dispatcher.running_comment (Dispatcher.comment_user ev)) h))
  /\ labels (run (Dispatcher.main w env ev) h).2 = labels h.
Proof.
  intros Hissue Hnumber Hpr Href Hev Hc Hcheck.
  assert (Events.get_pr_number_from_event (JObj d) vars = Some (Some n))
    as Hbot.
  { unfold Events.get_pr_number_from_event. rewrite key_in, Hissue.
    rewrite bool_decide_eq_true_2 by eauto.
    cbn [mbind option_bind Events.py_getitem]. rewrite Hissue.
    cbn [mbind option_bind]. rewrite (nonempty_truthy _ _ _ Hnumber).
    rewrite key_in, Hnumber, bool_decide_eq_true_2 by eauto.
    cbn [mbind option_bind Events.py_getitem]. by rewrite Hnumber. }
  assert (Events.get_pr_number (JObj d) vars = Some JNull) as Hval.
  { unfold Events.get_pr_number. rewrite key_in, Hpr.
    rewrite bool_decide_eq_false_2 by (by intros [? ?]).
    cbn [mbind option_bind]. by rewrite Href. }
  assert (Dispatcher.pr_number ev = Some n
          /\ Dispatcher.validator_pr_number ev = None) as [Hn Hnone].
  { unfold Events.event_of in Hev. rewrite Hbot, Hval in Hev.
    cbn [mbind option_bind] in Hev.
    destruct (Events.read_comment (JObj d) vars) as [[[] []]|];
      try discriminate Hev.
    by injection Hev as <-. }
  assert (Workflow.ready env ev = true) as Hready
    by (unfold Workflow.ready; rewrite Hc, Hn; by apply bool_decide_eq_true).
  assert (run (Dispatcher.main w env ev) h
          = (Exit 0,
             Workflow.post w Dispatcher.completed_comment
               (Workflow.post w
                  (Dispatcher.running_comment (Dispatcher.comment_user ev))
                  h))) as Hrun.
  { rewrite main_check by done. rewrite Hnone.
    by rewrite validator_no_pr. }
  split; [done|]. split; [done|]. split; [done|]. by rewrite Hrun.
Qed.

Lemma issue_event_check_validates_nothing_witness :
  let w := Sample.demo_world NoFile None [Sample.DEMO_PATH] in
  let issue : gmap string json := {[ "number" := JInt 7 ]} in
  let comment : gmap string json :=
    list_to_map
      [ ("body", JStr "@bot check");
        ("user", JObj {[ "login" := JStr "bob" ]}) ] in
  let d : gmap string json :=
    list_to_map [ ("issue", JObj issue); ("comment", JObj comment) ] in
  let vars := Events.Variables None (Some "refs/heads/main") None None in
  let ev := Dispatcher.Event (Some 7) "@bot check" "bob" "Artyomka628" None in
  Events.event_of (H0 := sample_int) (JObj d) vars "Artyomka628" = Some ev
  /\ run (Dispatcher.main (H := Sample.sample_runtime) w Sample.env ev)
       Sample.fresh
     = (Exit 0,
        Workflow.post w Dispatcher.completed_comment
          (Workflow.post w (Dispatcher.running_comment "bob") Sample.fresh)).
Proof.
  intros w issue comment d vars ev.
  assert (Events.event_of (H0 := sample_int) (JObj d) vars "Artyomka628"
          = Some ev) as Hev by (vm_compute; reflexivity).
  split; [exact Hev|].
  refine (proj1 (proj2 (proj2
    (issue_event_check_validates_nothing (H := Sample.sample_runtime)
       (H0 := sample_int) w Sample.env vars d issue 7 "Artyomka628" ev
       Sample.fresh _ _ _ _ Hev _ _)))).
  - vm_compute. reflexivity.
  - vm_compute. reflexivity.
  - vm_compute. reflexivity.
  - reflexivity.
  - reflexivity.
  - reflexivity.
Defined.

(** X14.  With a payload that names the thread under neither [issue] nor
    [pull_request], both scripts take the number from a [GITHUB_REF] of
    the form [refs/pull/<n>/...]: the third part of the ref, read as an
    integer.  When it is no integer the dispatcher goes on without a
    thread, while the validator raises. *)
Theorem thread_number_from_ref `{Events.PyInt} (vars : Events.variables)
    (d : gmap string json) (n rest : string) :
  d !! "issue" = None ->
  d !! "pull_request" = None ->
  Events.GITHUB_REF vars = Some ("refs/pull/" +:+ n +:+ "/" +:+ rest) ->
  Workflow.occurs "/" n = false ->
  Events.get_pr_number_from_event (JObj d) vars
  = Some (Events.int_of_str n)
  /\ Events.get_pr_number (JObj d) vars
     = (z ← Events.int_of_str n; Some (JInt z)).
Proof.
  intros Hissue Hpr Href Hn.
  assert (Events.split "/" ("refs/pull/" +:+ n +:+ "/" +:+ rest)
          = "refs" :: "pull" :: n :: Events.split "/" rest) as Hsplit.
  { change ("refs/pull/" +:+ n +:+ "/" +:+ rest)
      with ("refs" +:+ String "/" ("pull" +:+ String "/" (n +:+ String "/" rest))).
    by rewrite !split_app. }
  assert (startswith ("refs/pull/" +:+ n +:+ "/" +:+ rest) "refs/pull/"
          = true) as Hstart by apply prefix_app.
  split.
  - unfold Events.get_pr_number_from_event, Events.pr_number_from_ref.
    rewrite key_in, Hissue, bool_decide_eq_false_2 by (by intros [? ?]).
    cbn [mbind option_bind]. rewrite Href. cbn [default from_option id].
    by rewrite Hstart, Hsplit.
  - unfold Events.get_pr_number.
    rewrite key_in, Hpr, bool_decide_eq_false_2 by (by intros [? ?]).
    cbn [mbind option_bind]. rewrite Href. cbn [default from_option id].
    by rewrite Hstart, Hsplit.
Qed.

Lemma thread_number_from_ref_witness :
  let merge_ref := Events.Variables None (Some "refs/pull/42/merge") None None in
  let odd_ref := Events.Variables None (Some "refs/pull/x/merge") None None in
  Events.get_pr_number_from_event (H0 := sample_int) (JObj ∅) merge_ref
  = Some (Some 42)
  /\ Events.get_pr_number (H0 := sample_int) (JObj ∅) merge_ref
     = Some (JInt 42)
  /\ Events.get_pr_number_from_event (H0 := sample_int) (JObj ∅) odd_ref
     = Some None
  /\ Events.get_pr_number (H0 := sample_int) (JObj ∅) odd_ref = None.
Proof.
  intros merge_ref odd_ref.
  destruct (thread_number_from_ref (H := sample_int) merge_ref ∅ "42"
              "merge") as [Hbot Hval]; [reflexivity..|].
  destruct (thread_number_from_ref (H := sample_int) odd_ref ∅ "x" "merge")
    as [Hbot' Hval']; [reflexivity..|].
  split; [exact Hbot|]. split; [exact Hval|]. split; [exact Hbot'|exact Hval'].
Defined.

Section offsets.

Lemma length_append (a b : string) :
  String.length (a +:+ b) = (String.length a + String.length b)%nat.
Proof.
  induction a as [|c a IH]; [done|].
  change (S (String.length (a +:+ b))
          = S (String.length a + String.length b)).
  by rewrite IH.
Qed.

(** Searching behind a prefix is searching in what follows it. *)
Lemma index_shift (a p s : string) (n : nat) :
  String.index (String.length a + n) p (a +:+ s) =
  (fun k => (String.length a + k)%nat) <$> String.index n p s.
Proof.
  induction a as [|c a IH].
  { change (String.index n p s = (fun k => k) <$> String.index n p s).
    by destruct (String.index n p s). }
  change (String.index (String.length (String c a) + n) p (String c a +:+ s))
    with (match String.index (String.length a + n) p (a +:+ s) with
          | Some k => Some (S k)
          | None => None
          end).
  rewrite IH. by destruct (String.index n p s).
Qed.

(** A needle is first found behind a prefix that lacks its first
    character. *)
Lemma index_first (c : ascii) (p pre rest : string) :
  Workflow.occurs c pre = false ->
  String.index 0 (String c p) (pre +:+ String c p +:+ rest)
  = Some (String.length pre).
Proof.
  induction pre as [|b pre IH]; intros Hpre.
  - change (EmptyString +:+ String c p +:+ rest)
      with (String c (p +:+ rest)).
    change (String.index 0 (String c p) (String c (p +:+ rest)))
      with (if String.prefix (String c p) (String c (p +:+ rest))
            then Some 0%nat
            else match String.index 0 (String c p) (p +:+ rest) with
                 | Some n => Some (S n)
                 | None => None
                 end).
    pose proof (prefix_app (String c p) rest) as Hp.
    change (String c p +:+ rest) with (String c (p +:+ rest)) in Hp.
    by rewrite Hp.
  - cbn [Workflow.occurs] in Hpre. apply orb_false_elim in Hpre as [Hb Hpre].
    change (String.index 0 (String c p)
              (String b pre +:+ String c p +:+ rest))
      with (if String.prefix (String c p)
                 (String b (pre +:+ String c p +:+ rest))
            then Some 0%nat
            else match String.index 0 (String c p)
                         (pre +:+ String c p +:+ rest) with
                 | Some n => Some (S n)
                 | None => None
                 end).
    rewrite (IH Hpre). cbn [String.prefix].
    destruct (ascii_dec c b) as [->|_]; [|done].
    by rewrite Ascii.eqb_refl in Hb.
Qed.

Lemma substring_shift (a s : string) (n m : nat) :
  String.substring (String.length a + n) m (a +:+ s) = String.substring n m s.
Proof. induction a as [|c a IH]; [done|]. exact IH. Qed.

Lemma substring_prefix (t r : string) :
  String.substring 0 (String.length t) (t +:+ r) = t.
Proof.
  induction t as [|c t IH]; [by destruct r|].
  change (String c (String.substring 0 (String.length t) (t +:+ r))
          = String c t).
  by rewrite IH.
Qed.

End offsets.

(** X15.  A comment body that holds, behind any text without [<], the
    start marker, a text without [E], and the end marker, is read back as
    what [json.loads] makes of that text stripped: the start marker found
    is that one, the end marker found is the one behind the text, and
    whatever follows it is not looked at. *)
Theorem marked_text_is_read_back `{PyRuntime} (author pre text suffix : string) :
  Workflow.occurs "<" pre = false ->
  Workflow.occurs "E" text = false ->
  let body :=
    pre +:+ Dispatcher.MARKER_START_DEFAULT +:+ text +:+ Dispatcher.MARKER_END
    +:+ suffix in
  Dispatcher.read_hashes Dispatcher.MARKER_START_DEFAULT body
  = json_loads (strip text)
  /\ Workflow.carries (Comment author (Some body))
     = match json_loads (strip text) with
       | Return data => Some data
       | Raise _ => None
       end.
Proof.
  intros Hpre Htext body.
  set (M := Dispatcher.MARKER_START_DEFAULT) in *.
  assert (String.index 0 M body = Some (String.length pre)) as Hstart.
  { unfold body, M, Dispatcher.MARKER_START_DEFAULT.
    by apply (index_first "<" "!-- MANIFEST_HASHES"). }
  assert (String.index (String.length pre + String.length M)
            Dispatcher.MARKER_END body
          = Some (String.length pre + (String.length M + String.length text))%nat)
    as Hend.
  { unfold body. rewrite index_shift.
    rewrite <- (Nat.add_0_r (String.length M)) at 1. rewrite index_shift.
    unfold Dispatcher.MARKER_END.
    by rewrite (index_first "E" "ND MANIFEST_HASHES -->" text suffix Htext). }
  assert (Dispatcher.read_hashes M body = json_loads (strip text)) as Hread.
  { unfold Dispatcher.read_hashes. rewrite Hstart, Hend.
    replace (String.length pre + (String.length M + String.length text)
             - (String.length pre + String.length M))%nat
      with (String.length text) by lia.
    unfold body. rewrite substring_shift.
    rewrite <- (Nat.add_0_r (String.length M)) at 1.
    by rewrite substring_shift, substring_prefix. }
  split; [done|]. unfold Workflow.carries. cbn [Host.body from_option id].
  fold M. rewrite Hread.
  assert (contains M body = true) as ->
    by (unfold body; apply contains_app_r, contains_here).
  done.
Qed.

Lemma marked_text_is_read_back_witness :
  Workflow.carries (H := Sample.sample_runtime)
    (Comment "github-actions[bot]"
       (Some ("Hashes at validation:" +:+ nl
              +:+ Dispatcher.MARKER_START_DEFAULT +:+ " {} "
              +:+ Dispatcher.MARKER_END +:+ nl +:+ "do not edit")))
  = Some (JObj ∅).
Proof.
  refine (proj2 (marked_text_is_read_back (H := Sample.sample_runtime)
                   "github-actions[bot]" ("Hashes at validation:" +:+ nl)
                   " {} " (nl +:+ "do not edit") _ _)); reflexivity.
Defined.

Section suffixes.

Lemma append_assoc (a b c : string) : (a +:+ b) +:+ c = a +:+ b +:+ c.
Proof.
  induction a as [|x a IH]; [done|].
  change (String x ((a +:+ b) +:+ c) = String x (a +:+ b +:+ c)).
  by rewrite IH.
Qed.

Lemma substring_all (s : string) :
  String.substring 0 (String.length s) s = s.
Proof.
  induction s as [|c s IH]; [done|].
  change (String c (String.substring 0 (String.length s) s) = String c s).
  by rewrite IH.
Qed.

(** A text ends with what was appended to it last. *)
Lemma endswith_app (a suf : string) : endswith (a +:+ suf) suf = true.
Proof.
  unfold endswith. rewrite length_append.
  replace (String.length a + String.length suf - String.length suf)%nat
    with (String.length a + 0)%nat by lia.
  rewrite substring_shift, substring_all, String.eqb_refl, andb_true_r.
  apply Nat.leb_le. lia.
Qed.

Lemma prefix_split (p s : string) :
  String.prefix p s = true -> exists r, s = p +:+ r.
Proof.
  revert s. induction p as [|c p IH]; intros s; [by exists s|].
  destruct s as [|b s]; [done|]. cbn [String.prefix].
  destruct (ascii_dec c b) as [->|]; [|done].
  intros [r ->]%IH. by exists r.
Qed.

(** A text is what comes before a position and what comes from it on. *)
Lemma substring_tail (s : string) (m : nat) :
  (m <= String.length s)%nat ->
  s = String.substring 0 m s
      +:+ String.substring m (String.length s - m) s.
Proof.
  revert m. induction s as [|c s IH]; intros [|m] Hm;
    cbn [String.length] in Hm; try lia.
  - done.
  - change (String c s
            = String.substring 0 (String.length (String c s)) (String c s)).
    by rewrite substring_all.
  - change (String c s
            = String c (String.substring 0 m s
                        +:+ String.substring m (String.length s - m) s)).
    rewrite <- IH by lia. done.
Qed.

Lemma endswith_split (s suf : string) :
  endswith s suf = true -> exists front, s = front +:+ suf.
Proof.
  unfold endswith. intros [Hle Heq]%andb_true_iff.
  apply Nat.leb_le in Hle. apply String.eqb_eq in Heq.
  exists (String.substring 0 (String.length s - String.length suf) s).
  rewrite (substring_tail s (String.length s - String.length suf)) at 1
    by lia.
  replace (String.length s - (String.length s - String.length suf))%nat
    with (String.length suf) by lia.
  by rewrite Heq.
Qed.

(** Behind a prefix, a text that is long enough ends as the whole does. *)
Lemma endswith_shift (a s suf : string) :
  (String.length suf <= String.length s)%nat ->
  endswith (a +:+ s) suf = endswith s suf.
Proof.
  intros Hle. unfold endswith. rewrite length_append.
  replace (String.length a + String.length s - String.length suf)%nat
    with (String.length a + (String.length s - String.length suf))%nat
    by lia.
  rewrite substring_shift. apply Nat.leb_le in Hle as Hs. rewrite Hs.
  replace (String.length suf <=? String.length a + String.length s)%nat
    with true; [done|].
  symmetry. apply Nat.leb_le. lia.
Qed.

End suffixes.

(** X16.  The changed files both scripts look at are exactly those named
    [manifests/<name>.json], whatever [<name>] is, further directories
    included; [manifests/] alone, a file of another directory or with
    another ending is passed over. *)
Theorem manifest_paths_characterised (filename : string) :
  is_manifest filename = true <->
  exists name, filename = "manifests/" +:+ name +:+ ".json".
Proof.
  unfold is_manifest, startswith. split.
  - intros [[r ->]%prefix_split Hend]%andb_true_iff.
    assert (exists name, r = name +:+ ".json") as [name ->];
      [|by exists name].
    destruct r as [|c1 [|c2 [|c3 [|c4 [|c5 r]]]]];
      try (by vm_compute in Hend).
    rewrite endswith_shift in Hend by (cbn; lia).
    by apply endswith_split.
  - intros [name ->]. rewrite prefix_app. cbn [andb].
    by rewrite <- append_assoc, endswith_app.
Qed.

(** X17.  Validation can be repeated: a second run in the same checkout
    ends as the first did and leaves the labels and the merge and close
    calls as the first run left them. *)
Theorem validation_repeats `{PyRuntime} (w : world) (env : environ)
    (pr : option Z) (h : host) :
  let first := run (Validator.main w env pr) h in
  let second := run (Validator.main w env pr) first.2 in
  second.1 = first.1
  /\ labels second.2 = labels first.2
  /\ calls second.2 = calls first.2.
Proof.
  destruct (validator_cases w env pr)
    as [[n Hrun]|[Hrun|[(_ & _ & Hrun)|(e & es & _ & Hrun)]]];
    cbn zeta; rewrite !Hrun; cbn [fst snd]; rewrite ?Hrun; cbn [fst snd];
    try done.
  - unfold Workflow.locked. cbn [labels calls comments].
    split; [done|]. split; [|done]. apply leibniz_equiv. set_solver.
  - unfold Workflow.invalidated. cbn [labels calls comments].
    split; [done|]. split; [|done]. apply leibniz_equiv. set_solver.
Qed.

(** X18.  A check command is open to every actor: whoever wrote it, the
    dispatcher announces the run, runs the validator on the thread the
    workflow names for it, reports the completion in one more comment and
    ends with status 0.  What the validator does in between is one of four
    things.  Without a thread named for it, or without a changed manifest,
    it touches no label, and the completion is reported as a success.  With
    manifests and no defect it puts the thread under review, and the
    completion is reported as a success.  With defects it marks the thread
    invalid and lists them, and the completion is reported with errors.
    When a manifest makes it end in an uncaught exception, it touches no
    label and posts nothing, and the completion is reported with errors. *)
Theorem check_runs_validation `{PyRuntime} (w : world) (env : environ)
    (ev : Dispatcher.event) (h : host) :
  Workflow.ready env ev = true ->
  Workflow.check_command (Dispatcher.comment_body ev) = true ->
  let started :=
    Workflow.post w (Dispatcher.running_comment (Dispatcher.comment_user ev))
      h in
  run (Dispatcher.main w env ev) h
  = (Exit 0,
     if Validator.no_pr (Dispatcher.validator_pr_number ev)
     then Workflow.post w Dispatcher.completed_comment started
     else
       match Workflow.manifests_of w with
       | [] => Workflow.post w Dispatcher.completed_comment started
       | _ :: _ =>
           match Validator.check_manifests w (Workflow.manifests_of w) with
           | Some [] =>
               Workflow.post w Dispatcher.completed_comment
                 (Workflow.locked w started)
           | Some (e :: es) =>
               Workflow.post w Dispatcher.completed_with_errors_comment
                 (Workflow.invalidated w (e :: es) started)
           | None =>
               Workflow.post w Dispatcher.completed_with_errors_comment
                 started
           end
       end).
Proof.
  intros Hready Hcheck started.
  assert (Workflow.configured env = true) as Hc
    by (unfold Workflow.ready in Hready;
        by apply andb_true_iff in Hready as [? _]).
  rewrite main_check by done. fold started.
  destruct (Validator.no_pr (Dispatcher.validator_pr_number ev)) eqn:Hpr;
    [by rewrite validator_no_pr|].
  assert (Workflow.manifests_of w = [] \/ Workflow.manifests_of w <> [])
    as [Hm|Hm] by (destruct (Workflow.manifests_of w); [by left|by right]).
  { rewrite validator_no_manifests by done. by rewrite Hm. }
  destruct (Validator.check_manifests w (Workflow.manifests_of w))
    as [[|e es]|] eqn:Herrors.
  - rewrite validator_clean by done.
    by destruct (Workflow.manifests_of w).
  - rewrite (validator_defects w env _ started e es) by done.
    by destruct (Workflow.manifests_of w).
  - rewrite validator_crash by done.
    by destruct (Workflow.manifests_of w).
Qed.

Lemma check_runs_validation_witness :
  let w := Sample.demo_world (Content Sample.demo_v1) (Some Sample.good_icon)
             [Sample.DEMO_PATH] in
  let started :=
    Workflow.post w (Dispatcher.running_comment "bob") Sample.fresh in
  let on_issue := {|
    Dispatcher.pr_number := Some 7;
    Dispatcher.comment_body := "@bot check";
    Dispatcher.comment_user := "bob";
    Dispatcher.MODERATOR := "Artyomka628";
    Dispatcher.validator_pr_number := None
  |} in
  run (Dispatcher.main (H := Sample.sample_runtime) w Sample.env
         (Sample.command "bob" "@bot check")) Sample.fresh
  = (Exit 0,
     Workflow.post w Dispatcher.completed_comment (Workflow.locked w started))
  /\ run (Dispatcher.main (H := Sample.sample_runtime) w Sample.env on_issue)
       Sample.fresh
     = (Exit 0, Workflow.post w Dispatcher.completed_comment started).
Proof.
  intros w started on_issue. split.
  - apply (check_runs_validation (H := Sample.sample_runtime) w Sample.env
             (Sample.command "bob" "@bot check") Sample.fresh);
      reflexivity.
  - apply (check_runs_validation (H := Sample.sample_runtime) w Sample.env
             on_issue Sample.fresh);
      reflexivity.
Defined.

(** X19.  Without an event file, be it that [GITHUB_EVENT_PATH] is unset
    or that no file is at the path, the payload is the empty object: the
    dispatcher then has the thread from [GITHUB_REF] alone and the comment
    and its author from [GITHUB_EVENT_COMMENT_BODY] and [GITHUB_ACTOR],
    empty where these are unset. *)
Theorem no_event_file_falls_back `{PyRuntime} `{Events.PyInt} (w : world)
    (vars : Events.variables) :
  (Events.GITHUB_EVENT_PATH vars = None
   \/ exists event_path,
        Events.GITHUB_EVENT_PATH vars = Some event_path
        /\ fs w event_path = NoFile) ->
  Events.get_event_payload w vars = Some (JObj ∅)
  /\ Events.get_pr_number_from_event (JObj ∅) vars
     = Events.pr_number_from_ref vars
  /\ Events.read_comment (JObj ∅) vars
     = Some (JStr (default EmptyString (Events.GITHUB_EVENT_COMMENT_BODY vars)),
             JStr (default EmptyString (Events.GITHUB_ACTOR vars)))
  /\ (startswith (default EmptyString (Events.GITHUB_REF vars)) "refs/pull/"
      = false ->
      Events.get_pr_number_from_event (JObj ∅) vars = Some None).
Proof.
  intros Hpath. split; [|split; [done|split; [done|]]].
  - unfold Events.get_event_payload.
    destruct Hpath as [->|(event_path & -> & Hfs)]; [done|].
    rewrite Hfs. by destruct (String.eqb event_path EmptyString).
  - intros Href. change (Events.get_pr_number_from_event (JObj ∅) vars)
      with (Events.pr_number_from_ref vars).
    unfold Events.pr_number_from_ref. by rewrite Href.
Qed.

Lemma no_event_file_falls_back_witness :
  let w := Sample.demo_world NoFile None [] in
  let vars :=
    Events.Variables (Some "/github/workflow/event.json")
      (Some "refs/pull/42/merge") (Some "@bot check") (Some "bob") in
  Events.get_event_payload (H := Sample.sample_runtime) w vars
  = Some (JObj ∅)
  /\ Events.event_of (H0 := sample_int) (JObj ∅) vars "Artyomka628"
     = Some (Dispatcher.Event (Some 42) "@bot check" "bob" "Artyomka628"
               (Some 42)).
Proof.
  intros w vars.
  destruct (no_event_file_falls_back (H := Sample.sample_runtime)
              (H0 := sample_int) w vars) as (Hpayload & _).
  - right. exists "/github/workflow/event.json". split; reflexivity.
  - split; [exact Hpayload|]. vm_compute. reflexivity.
Defined.


